(** * Optima-Pricer: the pricing decision engine

    A shallow embedding of the numeric core of the backend:
    - [app/services/price_optimizer.py]: [Product], [PriceOptimizer.optimize_price],
      [PriceOptimizer._estimate_elasticity], [PriceOptimizer.calculate_elasticity_curve];
    - [app/blueprints/products.py]: [_validate_scraped_price], [get_product_market_data];
    - [app/blueprints/recommendations.py]: the optimal-price part of [get_elasticity_curve].

    Python floats are read as exact rationals ([Q]): every comparison, sum, product and
    quotient is the exact one, and [round] is the exact round-half-even that Python
    applies to the value it is given.  The one operation with no rational counterpart,
    [x ** y] at a fractional exponent, is a parameter of the development. *)

From Stdlib Require Import QArith Qround ZArith List String Ascii Bool Lia Lqa.
From Stdlib Require Import DecimalString Sorted Permutation.
Import ListNotations.
Open Scope Q_scope.

(** ** Python numbers *)

Module Py.

(** [a < b], [a <= b], [a > b] and [a >= b] as Python evaluates them. *)
Definition lt (a b : Q) : bool := negb (Qle_bool b a).
Definition le (a b : Q) : bool := Qle_bool a b.
Definition gt (a b : Q) : bool := lt b a.
Definition ge (a b : Q) : bool := le b a.

(** [max(a, b)] and [min(a, b)]: the first argument wins a tie. *)
Definition max (a b : Q) : Q := if gt b a then b else a.
Definition min (a b : Q) : Q := if lt b a then b else a.

(** [abs(a)]. *)
Definition abs (a : Q) : Q := if lt a 0 then - a else a.

(** [round(x)]: the nearest integer, a tie going to the even one. *)
Definition round_int (x : Q) : Z :=
  let f := Qfloor x in
  let r := x - inject_Z f in
  if lt r (1 # 2) then f
  else if lt (1 # 2) r then (f + 1)%Z
  else if Z.even f then f else (f + 1)%Z.

(** [round(x, n)] for a number of decimals [n >= 0]. *)
Definition round (x : Q) (n : nat) : Q :=
  let s := inject_Z (10 ^ Z.of_nat n) in
  inject_Z (round_int (x * s)) / s.

(** [sum(l)], [min(l)] and [max(l)] of a list; the last two raise [ValueError] on
    an empty list, which is [None] here. *)
Definition sum (l : list Q) : Q := fold_left Qplus l 0.

Definition min_list (l : list Q) : option Q :=
  match l with
  | [] => None
  | x :: t => Some (fold_left (fun m y => if lt y m then y else m) t x)
  end.

Definition max_list (l : list Q) : option Q :=
  match l with
  | [] => None
  | x :: t => Some (fold_left (fun m y => if gt y m then y else m) t x)
  end.

(** [len(l)] as a float. *)
Definition len {A} (l : list A) : Q := inject_Z (Z.of_nat (List.length l)).

(** [s.lower()] on ASCII text. *)
Definition lower_ascii (c : ascii) : ascii :=
  let n := nat_of_ascii c in
  if (65 <=? n)%nat && (n <=? 90)%nat then ascii_of_nat (n + 32) else c.

Fixpoint lower (s : string) : string :=
  match s with
  | EmptyString => EmptyString
  | String c t => String (lower_ascii c) (lower t)
  end.

(** [x in l] for a list of strings. *)
Definition in_list (x : string) (l : list string) : bool :=
  existsb (String.eqb x) l.

End Py.

(** ** [price_optimizer.py] *)

(** [class Product]. *)
Record Product := mkProduct {
  id : string;
  name : string;
  sku : string;
  category : string;
  cost_price : Q;
  current_price : Q;
  competitor_price : option Q;
  sales_velocity : Q
}.

Definition luxury_categories : list string := ["Shapewear"; "Loungewear"]%string.

(** The local [elasticity] of [_estimate_elasticity] when the [return] is reached. *)
Definition elasticity_before_clamp (product : Product) (current_margin : Q) : Q :=
  let elasticity := 1.5 in
  let elasticity :=
    if Py.in_list (category product) luxury_categories
    then elasticity - 0.3 else elasticity in
  let elasticity :=
    if Py.gt current_margin 50 then elasticity - 0.5
    else if Py.lt current_margin 30 then elasticity + 0.3
    else elasticity in
  let elasticity :=
    if Py.gt (sales_velocity product) 50 then elasticity + 0.2 else elasticity in
  elasticity.

(** [PriceOptimizer._estimate_elasticity]. *)
Definition _estimate_elasticity (product : Product) (current_margin : Q) : Q :=
  Py.max 0.5 (Py.min 3.0 (elasticity_before_clamp product current_margin)).

(** The estimate as the specification words it: base 1.5, the three additive
    adjustments, and a clamp to [[0.5, 3.0]]. *)
Module Reference.

Definition clamp (lo hi x : Q) : Q :=
  if Py.lt x lo then lo else if Py.lt hi x then hi else x.

Definition is_luxury (cat : string) : bool :=
  String.eqb cat "Shapewear" || String.eqb cat "Loungewear".

Definition category_adjustment (cat : string) : Q :=
  if is_luxury cat then - 0.3 else 0.

Definition margin_adjustment (margin : Q) : Q :=
  if Py.gt margin 50 then - 0.5 else if Py.lt margin 30 then 0.3 else 0.

Definition velocity_adjustment (velocity : Q) : Q :=
  if Py.gt velocity 50 then 0.2 else 0.

Definition estimate (cat : string) (margin velocity : Q) : Q :=
  clamp 0.5 3.0
    (1.5 + category_adjustment cat + margin_adjustment margin
     + velocity_adjustment velocity).

End Reference.

(** *** [PriceOptimizer.optimize_price] *)

(** The dict that [optimize_price] returns. *)
Record Recommendation := mkRecommendation {
  suggestedPrice : Q;
  predictedMargin : Q;
  confidenceScore : Z;
  rationale : string;
  riskLevel : string;
  strategy : string;
  marketPosition : string;
  implementationTiming : string;
  revenueImpact : Z;
  competitorMinPrice : Q;
  competitorMaxPrice : Q
}.

(** [str(n)] of a length, for the f-string of the rationale. *)
Definition str_of_nat (n : nat) : string :=
  DecimalString.NilEmpty.string_of_uint (Nat.to_uint n).

(** A list is truthy when it is not empty. *)
Definition nonempty {A} (l : list A) : bool :=
  match l with [] => false | _ :: _ => true end.

(** Lines 32-43: [competitor_prices] after the secondary filter. *)
Definition filter_competitor_prices (current_price : Q) (competitor_prices : list Q)
  : list Q :=
  if nonempty competitor_prices && Py.gt current_price 0 then
    let min_reasonable := current_price * 0.1 in
    let max_reasonable := current_price * 5.0 in
    let filtered_prices :=
      filter (fun p => Py.le min_reasonable p && Py.le p max_reasonable)
             competitor_prices in
    if nonempty filtered_prices then filtered_prices else competitor_prices
  else competitor_prices.

(** Lines 46-48: the market statistics of the (filtered) [competitor_prices]. *)
Record MarketStatistics := mkStatistics {
  avg_competitor_price : Q;
  min_competitor_price : Q;
  max_competitor_price : Q
}.

Definition market_statistics (current_price : Q) (competitor_prices : list Q)
  : MarketStatistics :=
  {| avg_competitor_price :=
       if nonempty competitor_prices
       then Py.sum competitor_prices / Py.len competitor_prices
       else current_price;
     min_competitor_price :=
       match Py.min_list competitor_prices with
       | Some m => m
       | None => current_price * 0.9
       end;
     max_competitor_price :=
       match Py.max_list competitor_prices with
       | Some m => m
       | None => current_price * 1.15
       end |}.

(** The locals that the decision branch (lines 53-68) assigns and the margin floor
    (lines 77-87) may overwrite. *)
Record Decision := mkDecision {
  d_suggested_price : Q;
  d_strategy : string;
  d_rationale : string;
  d_confidence_score : Z;
  d_risk_level : string;
  d_market_position : string
}.

Definition decide_price (current_price : Q) (competitor_prices : list Q)
    (avg_competitor_price : Q) : Decision :=
  if nonempty competitor_prices && (0 <? List.length competitor_prices)%nat then
    {| d_suggested_price := avg_competitor_price;
       d_strategy := "Match Market";
       d_rationale :=
         "Price matched to market average from "
         ++ str_of_nat (List.length competitor_prices)
         ++ " scraped sources. Aligning with current market conditions.";
       d_confidence_score := 85;
       d_risk_level := "low";
       d_market_position := "Competitive" |}%string
  else
    {| d_suggested_price := current_price;
       d_strategy := "No Data";
       d_rationale := "No recent market data available. Using current price.";
       d_confidence_score := 50;
       d_risk_level := "medium";
       d_market_position := "Unknown" |}%string.

Definition floor_note : string :=
  " Adjusted to maintain minimum 20% margin.".

Definition floor_warning : string :=
  " WARNING: Market price is below recommended minimum margin. Consider reviewing cost structure.".

Definition margin_floor (cost_price : Q) (d : Decision) : Decision :=
  let min_price := cost_price * 1.2 in
  if Py.lt (d_suggested_price d) min_price then
    if Py.ge (d_suggested_price d) (cost_price * 1.1) then
      {| d_suggested_price := min_price;
         d_strategy := d_strategy d;
         d_rationale := (d_rationale d ++ floor_note)%string;
         d_confidence_score := d_confidence_score d;
         d_risk_level := "medium";
         d_market_position := d_market_position d |}
    else
      {| d_suggested_price := d_suggested_price d;
         d_strategy := d_strategy d;
         d_rationale := (d_rationale d ++ floor_warning)%string;
         d_confidence_score := d_confidence_score d;
         d_risk_level := "high";
         d_market_position := d_market_position d |}
  else d.

(** The decision before the margin floor, and after it. *)
Definition pre_floor (product : Product) (competitor_prices : list Q) : Decision :=
  let current_price := current_price product in
  let competitor_prices := filter_competitor_prices current_price competitor_prices in
  let stats := market_statistics current_price competitor_prices in
  decide_price current_price competitor_prices (avg_competitor_price stats).

Definition post_floor (product : Product) (competitor_prices : list Q) : Decision :=
  margin_floor (cost_price product) (pre_floor product competitor_prices).

(** The numbers that the [return] statement rounds, as they stand at line 103. *)
Record Unrounded := mkUnrounded {
  u_suggested_price : Q;
  u_predicted_margin : Q;
  u_revenue_impact : Q;
  u_min_competitor_price : Q;
  u_max_competitor_price : Q
}.

Definition unrounded (product : Product) (competitor_prices : list Q) : Unrounded :=
  let current_price := current_price product in
  let cost_price := cost_price product in
  let competitor_prices := filter_competitor_prices current_price competitor_prices in
  let stats := market_statistics current_price competitor_prices in
  let suggested_price :=
    d_suggested_price
      (margin_floor cost_price
         (decide_price current_price competitor_prices (avg_competitor_price stats))) in
  {| u_suggested_price := suggested_price;
     u_predicted_margin :=
       if Py.gt suggested_price 0
       then ((suggested_price - cost_price) / suggested_price) * 100
       else 0;
     u_revenue_impact :=
       sales_velocity product * (suggested_price - current_price) * 4;
     u_min_competitor_price := min_competitor_price stats;
     u_max_competitor_price := max_competitor_price stats |}.

(** Lines 97-102. *)
Definition timing (risk_level : string) (price_change current_price current_margin : Q)
  : string :=
  if String.eqb risk_level "high" || Py.gt (Py.abs price_change) (current_price * 0.1)
  then "Phased - Monitor closely"
  else if Py.gt price_change 0 && Py.lt current_margin 30
  then "Immediate - High opportunity"
  else "Immediate".

(** [optimize_price(product, competitor_prices)].  The locals [price_diff] and
    [price_diff_percent] are computed for display and never read; [market_data] is
    never read either. *)
Definition optimize_price (product : Product) (competitor_prices : list Q)
  : Recommendation :=
  let current_price := current_price product in
  let cost_price := cost_price product in
  let current_margin :=
    if Py.gt current_price 0
    then ((current_price - cost_price) / current_price) * 100 else 0 in
  let d := post_floor product competitor_prices in
  let u := unrounded product competitor_prices in
  let price_change := u_suggested_price u - current_price in
  {| suggestedPrice := Py.round (u_suggested_price u) 2;
     predictedMargin := Py.round (u_predicted_margin u) 1;
     confidenceScore := d_confidence_score d;
     rationale := d_rationale d;
     riskLevel := d_risk_level d;
     strategy := d_strategy d;
     marketPosition := d_market_position d;
     implementationTiming :=
       timing (d_risk_level d) price_change current_price current_margin;
     revenueImpact := Py.round_int (u_revenue_impact u);
     competitorMinPrice := Py.round (u_min_competitor_price u) 2;
     competitorMaxPrice := Py.round (u_max_competitor_price u) 2 |}.

(** *** [PriceOptimizer.calculate_elasticity_curve] *)

(** A point of the curve: the dict [{'price': ..., 'demand': ...}]. *)
Record CurvePoint := mkPoint {
  pt_price : Q;
  pt_demand : Q
}.

(** A point of [curve_with_metrics] in [get_elasticity_curve]. *)
Record CurveMetric := mkMetric {
  cm_price : Q;
  cm_demand : Q;
  cm_revenue : Q;
  cm_profit : Q;
  cm_profitMargin : Q
}.

(** The three [optimal...] entries of the response of [get_elasticity_curve]. *)
Record Optimal := mkOptimal {
  optimalPrice : Q;
  optimalDemand : Q;
  optimalProfit : Q
}.

(** A raised exception is [None]; [bind] runs the rest when nothing was raised. *)
Definition bind {A B} (c : option A) (k : A -> option B) : option B :=
  match c with
  | Some a => k a
  | None => None
  end.

Notation "x <- c ;; k" := (bind c (fun x => k))
  (at level 61, c at next level, right associativity).

(** A [for] loop that appends one result per element and stops at the first
    exception. *)
Fixpoint for_each {A B} (f : A -> option B) (l : list A) : option (list B) :=
  match l with
  | [] => Some []
  | a :: t => b <- f a ;; bs <- for_each f t ;; Some (b :: bs)
  end.

(** [a / b], which raises [ZeroDivisionError] when [b] is zero. *)
Definition div (a b : Q) : option Q :=
  if Qeq_bool b 0 then None else Some (a / b).

Definition is_integer (y : Q) : bool := Qeq_bool y (inject_Z (Qfloor y)).

Definition num_points : nat := 20.

Definition of_nat (n : nat) : Q := inject_Z (Z.of_nat n).

Definition current_margin_of (cost_price current_price : Q) : Q :=
  if Py.gt current_price 0
  then ((current_price - cost_price) / current_price) * 100 else 0.

Definition of_metric (m : CurveMetric) : Optimal :=
  {| optimalPrice := cm_price m;
     optimalDemand := cm_demand m;
     optimalProfit := cm_profit m |}.

(** [max(curve_with_metrics, key=lambda x: x['profit'])]: the first point of greatest
    profit; [ValueError] on an empty list. *)
Definition discrete_max (curve : list CurveMetric) : option CurveMetric :=
  match curve with
  | [] => None
  | x :: t =>
      Some (fold_left
              (fun m y => if Py.gt (cm_profit y) (cm_profit m) then y else m) t x)
  end.

(** Lines 320-332 of [recommendations.py], for one point. *)
Definition with_metrics (cost_price : Q) (point : CurvePoint) : CurveMetric :=
  let revenue := pt_demand point * pt_price point in
  let profit := pt_demand point * (pt_price point - cost_price) in
  let profit_margin :=
    if Py.gt (pt_price point) 0
    then (pt_price point - cost_price) / pt_price point * 100 else 0 in
  {| cm_price := pt_price point;
     cm_demand := pt_demand point;
     cm_revenue := Py.round revenue 2;
     cm_profit := Py.round profit 2;
     cm_profitMargin := Py.round profit_margin 1 |}.

Section Power.

(** [rpow x y] is the float that [x ** y] evaluates to, wherever it is one. *)
Variable rpow : Q -> Q -> Q.

(** [x ** y] followed by a comparison of the result with a float.  A negative base
    at a fractional exponent gives a complex number, on which the [min] that
    follows raises [TypeError]; zero at a negative exponent raises
    [ZeroDivisionError]. *)
Definition pow (x y : Q) : option Q :=
  if Py.lt x 0 && negb (is_integer y) then None
  else if Qeq_bool x 0 && Py.lt y 0 then None
  else Some (rpow x y).

(** The price of the [i]-th iteration before it is rounded (line 167). *)
Definition price_at (min_price max_price : Q) (i : nat) : Q :=
  min_price + (max_price - min_price) * (of_nat i / of_nat (num_points - 1)).

(** The demand of lines 171-175 at a price. *)
Definition demand_at (current_price base_demand elasticity price : Q) : option Q :=
  let price_ratio := if Py.gt price 0 then current_price / price else 1 in
  p <- pow price_ratio elasticity ;;
  let demand := base_demand * p in
  Some (Py.max 0 (Py.min demand (base_demand * 3))).

Definition calculate_elasticity_curve (product : Product)
    (current_price suggested_price base_demand : Q) : option (list CurvePoint) :=
  let current_margin := current_margin_of (cost_price product) current_price in
  let elasticity := _estimate_elasticity product current_margin in
  let min_price := Py.max (cost_price product * 0.8) (current_price * 0.5) in
  let max_price := Py.min (current_price * 2.0) (current_price * 1.5) in
  for_each
    (fun i =>
       let price := price_at min_price max_price i in
       demand <- demand_at current_price base_demand elasticity price ;;
       Some {| pt_price := Py.round price 2; pt_demand := Py.round demand 1 |})
    (seq 0 num_points).

(** ** [recommendations.py]: the optimal price of [get_elasticity_curve] *)

(** The body of the [try] (lines 345-379). *)
Definition optimal_try (cost_price current_price base_demand elasticity : Q)
    (curve_with_metrics : list CurveMetric) : option Optimal :=
  if Py.gt elasticity 1.0 && Py.gt cost_price 0 then
    optimal_price_calc <- div (cost_price * elasticity) (elasticity - 1.0) ;;
    let optimal_price_calc := Py.max (cost_price * 1.1) optimal_price_calc in
    let optimal_price_calc := Py.min optimal_price_calc (current_price * 2.0) in
    optimal_price_ratio <-
      (if Py.gt optimal_price_calc 0
       then div current_price optimal_price_calc else Some 1) ;;
    p <- pow optimal_price_ratio elasticity ;;
    let optimal_demand_calc := base_demand * p in
    let optimal_demand_calc :=
      Py.max 0 (Py.min optimal_demand_calc (base_demand * 3)) in
    let optimal_profit_calc := optimal_demand_calc * (optimal_price_calc - cost_price) in
    discrete_max <- discrete_max curve_with_metrics ;;
    if Py.ge optimal_profit_calc (cm_profit discrete_max) then
      Some {| optimalPrice := Py.round optimal_price_calc 2;
              optimalDemand := Py.round optimal_demand_calc 1;
              optimalProfit := Py.round optimal_profit_calc 2 |}
    else Some (of_metric discrete_max)
  else
    optimal_point <- discrete_max curve_with_metrics ;;
    Some (of_metric optimal_point).

(** The [try] with its [except (ZeroDivisionError, ValueError, TypeError)]: every
    exception of the body is one of the three, and the handler takes the discrete
    maximum (whose own [ValueError] is not caught there). *)
Definition optimal_point (cost_price current_price base_demand elasticity : Q)
    (curve_with_metrics : list CurveMetric) : option Optimal :=
  match optimal_try cost_price current_price base_demand elasticity
          curve_with_metrics with
  | Some r => Some r
  | None => optimal_point <- discrete_max curve_with_metrics ;;
            Some (of_metric optimal_point)
  end.

(** [get_elasticity_curve] from the product and the recommendation's suggested
    price to the curve and the optimum of the response. *)
Definition get_elasticity_curve (product : Product) (suggested_price : Q)
  : option (list CurveMetric * Optimal) :=
  let base_demand :=
    if Py.gt (sales_velocity product) 0 then sales_velocity product else 100.0 in
  curve_data <-
    calculate_elasticity_curve product (current_price product) suggested_price
      base_demand ;;
  let current_margin :=
    current_margin_of (cost_price product) (current_price product) in
  let elasticity := _estimate_elasticity product current_margin in
  _suggested_demand <-
    demand_at (current_price product) base_demand elasticity suggested_price ;;
  let curve_with_metrics := map (with_metrics (cost_price product)) curve_data in
  optimal <-
    optimal_point (cost_price product) (current_price product) base_demand
      elasticity curve_with_metrics ;;
  Some (curve_with_metrics, optimal).

End Power.

(** The power function where it is rational: at an integer exponent.  The concrete
    runs below use it on products whose elasticity is 1 or 2. *)
Definition pow_integer (x y : Q) : Q := Qpower x (Qfloor y).

(** ** [products.py] *)

(** *** [_validate_scraped_price] *)

Definition major_retailers : list string :=
  ["amazon"; "walmart"; "target"; "bestbuy"; "homedepot"; "wayfair"]%string.

(** A float is truthy when it is not zero, a string when it is not empty. *)
Definition truthy (x : Q) : bool := negb (Qeq_bool x 0).

Definition truthy_string (s : string) : bool :=
  match s with EmptyString => false | String _ _ => true end.

(** [source and source.lower() in major_retailers], read as a condition. *)
Definition is_major_retailer (source : option string) : bool :=
  match source with
  | None => false
  | Some s => truthy_string s && Py.in_list (Py.lower s) major_retailers
  end.

Definition _validate_scraped_price (price cost_price current_price : Q)
    (source : option string) : bool :=
  if Py.lt price 0.01 || Py.gt price 1000000 then false
  else
    let is_major_retailer := is_major_retailer source in
    let min_cost_ratio := if is_major_retailer then 0.4 else 0.5 in
    let current_price_check :=
      if truthy current_price && Py.gt current_price 0 then
        let min_reasonable :=
          if is_major_retailer then current_price * 0.05 else current_price * 0.1 in
        let max_reasonable :=
          if is_major_retailer then current_price * 6.0 else current_price * 5.0 in
        if Py.lt price min_reasonable || Py.gt price max_reasonable then false
        else true
      else true in
    if truthy cost_price && Py.gt cost_price 0 then
      if Py.lt price (cost_price * min_cost_ratio) then false
      else
        let max_cost_ratio := if is_major_retailer then 15 else 10 in
        if Py.gt price (cost_price * max_cost_ratio) && Py.gt cost_price 100 then false
        else current_price_check
    else current_price_check.

(** The rules of the validator as the specification lists them. *)
Module Rules.

Definition min_cost_ratio (major : bool) : Q := if major then 0.40 else 0.50.
Definition max_cost_ratio (major : bool) : Q := if major then 15 else 10.

Definition absolute_bound (price : Q) : Prop :=
  price < 0.01 \/ 1000000 < price.





End Rules.

(** *** [get_product_market_data] *)

(** A [datetime], and a row of the [market_data] table. *)
Record Timestamp := mkTimestamp {
  year : Z;
  month : Z;
  day : Z;
  hour : Z;
  minute : Z;
  second : Z
}.

Record MarketData := mkMarketData {
  md_source : string;
  md_price : Q;
  md_scraped_at : option Timestamp
}.

(** [scraped_at.strftime('%Y-%m-%d %H:00')]: the date and the hour.  The order of the
    zero-padded strings is the lexicographic order of the four numbers. *)
Definition SessionKey : Type := (Z * Z * Z * Z)%type.

Definition session_key (t : Timestamp) : SessionKey :=
  (year t, month t, day t, hour t).

Definition key_code (k : SessionKey) : list Z :=
  let '(y, m, d, h) := k in [y; m; d; h].

Fixpoint lex_ltb (a b : list Z) : bool :=
  match a, b with
  | [], [] => false
  | [], _ :: _ => true
  | _ :: _, [] => false
  | x :: a', y :: b' => (x <? y)%Z || ((x =? y)%Z && lex_ltb a' b')
  end.

Definition key_ltb (a b : SessionKey) : bool := lex_ltb (key_code a) (key_code b).

Definition key_eqb (a b : SessionKey) : bool :=
  let '(y, m, d, h) := a in
  let '(y', m', d', h') := b in
  (y =? y')%Z && (m =? m')%Z && (d =? d')%Z && (h =? h')%Z.

(** An entry of a session: [{'price', 'timestamp', 'source'}]. *)
Record Item := mkItem {
  i_price : Q;
  i_timestamp : Timestamp;
  i_source : string
}.

(** [scan_sessions], a [defaultdict(list)], as the list of its keys with their
    values, in the order the keys were first used. *)
Definition Sessions : Type := list (SessionKey * list Item).

(** [scan_sessions[k].append(v)]. *)
Fixpoint append_item (k : SessionKey) (v : Item) (d : Sessions) : Sessions :=
  match d with
  | [] => [(k, [v])]
  | (k', l) :: t =>
      if key_eqb k k' then (k', l ++ [v]) :: t else (k', l) :: append_item k v t
  end.

(** [scan_sessions[k]] for a key of the dict. *)
Fixpoint get_session (k : SessionKey) (d : Sessions) : list Item :=
  match d with
  | [] => []
  | (k', l) :: t => if key_eqb k k' then l else get_session k t
  end.

(** Lines 228-244. *)
Definition scan_sessions (market_data : list MarketData) : Sessions :=
  fold_left
    (fun d md =>
       match md_scraped_at md with
       | Some t =>
           append_item (session_key t)
             {| i_price := md_price md; i_timestamp := t; i_source := md_source md |} d
       | None => d
       end)
    market_data [].

(** [sorted(keys)]. *)
Fixpoint insert_key (k : SessionKey) (l : list SessionKey) : list SessionKey :=
  match l with
  | [] => [k]
  | k' :: t => if key_ltb k' k then k' :: insert_key k t else k :: l
  end.

Definition sorted_keys (d : Sessions) : list SessionKey :=
  fold_right insert_key [] (map fst d).

(** [len(set(...))] of the sources of a session. *)
Definition distinct_sources (session_data : list Item) : nat :=
  List.length (nodup string_dec (map i_source session_data)).

(** An entry of [trend_data]. *)
Record SessionSummary := mkSummary {
  s_date : Z * Z * Z;
  s_timestamp : Timestamp;
  s_average : Q;
  s_min : Q;
  s_max : Q;
  s_count : nat;
  s_sources : nat
}.

Definition date_of (t : Timestamp) : Z * Z * Z := (year t, month t, day t).

(** One iteration of the loop of lines 249-264: the entry appended to [trend_data]
    (none when the session has no price) and the prices added to [all_prices]. *)
Definition summarize (session_data : list Item) : option SessionSummary * list Q :=
  let prices := map i_price session_data in
  match session_data, Py.min_list prices, Py.max_list prices with
  | first :: _, Some lo, Some hi =>
      (Some {| s_date := date_of (i_timestamp first);
               s_timestamp := i_timestamp first;
               s_average := Py.sum prices / Py.len prices;
               s_min := lo;
               s_max := hi;
               s_count := List.length prices;
               s_sources := distinct_sources session_data |},
       prices)
  | _, _, _ => (None, [])
  end.

Definition option_list {A} (o : option A) : list A :=
  match o with Some a => [a] | None => [] end.

(** The JSON body of the response; ['productPrice'] and ['dataSource'] do not depend
    on the rows and are left out, ['scanSessions'] is absent from the empty answer. *)
Record MarketResponse := mkResponse {
  trend : list SessionSummary;
  currentDistribution : list Q;
  allPrices : list Q;
  totalDataPoints : nat;
  scanSessions : option nat
}.

(** [get_product_market_data] once the product is found, on the rows of the query.
    [None] is the [IndexError] of [sorted(...)[-1]] on no key at all. *)
Definition get_product_market_data (market_data : list MarketData)
  : option MarketResponse :=
  if negb (nonempty market_data) then
    Some {| trend := []; currentDistribution := []; allPrices := [];
            totalDataPoints := 0; scanSessions := None |}
  else
    let scan_sessions := scan_sessions market_data in
    let keys := sorted_keys scan_sessions in
    let rounds := map (fun k => summarize (get_session k scan_sessions)) keys in
    let trend_data := flat_map (fun r => option_list (fst r)) rounds in
    let all_prices := flat_map snd rounds in
    recent_prices <-
      (if (List.length scan_sessions =? 1)%nat then Some all_prices
       else
         match rev keys with
         | [] => None
         | most_recent_session :: _ =>
             Some (map i_price (get_session most_recent_session scan_sessions))
         end) ;;
    let recent_prices := if nonempty recent_prices then recent_prices else all_prices in
    Some {| trend := trend_data;
            currentDistribution := recent_prices;
            allPrices := all_prices;
            totalDataPoints := List.length market_data;
            scanSessions := Some (List.length scan_sessions) |}.

(** ** [services/scraper.py] *)

(** [class ScrapedPrice]. *)
Record ScrapedPrice := mkScraped {
  sp_price : Q;
  sp_source : string;
  sp_url : string
}.

(** [pattern in s] for two strings. *)
Fixpoint contains (pattern s : string) : bool :=
  String.prefix pattern s
  || match s with
     | EmptyString => false
     | String _ t => contains pattern t
     end.

(** The dict [retailers] of [_extract_retailer_name], in the order it is written
    (the order in which the loop goes through it). *)
Definition retailers : list (string * list string) :=
  [("amazon", ["amazon.com"; "amazon"]);
   ("walmart", ["walmart.com"; "walmart"]);
   ("target", ["target.com"; "target"]);
   ("bestbuy", ["bestbuy.com"; "best buy"]);
   ("homedepot", ["homedepot.com"; "home depot"]);
   ("lowes", ["lowes.com"; "lowes"]);
   ("wayfair", ["wayfair.com"; "wayfair"]);
   ("ebay", ["ebay.com"; "ebay"]);
   ("etsy", ["etsy.com"; "etsy"]);
   ("costco", ["costco.com"; "costco"]);
   ("newegg", ["newegg.com"; "newegg"])]%string.

(** The two nested loops: the first retailer one of whose patterns occurs. *)
Fixpoint first_retailer (table : list (string * list string)) (url_lower : string)
  : option string :=
  match table with
  | [] => None
  | (retailer, patterns) :: rest =>
      if existsb (fun pattern => contains pattern url_lower) patterns
      then Some retailer
      else first_retailer rest url_lower
  end.

Definition _extract_retailer_name (url : string) : string :=
  let url_lower := Py.lower url in
  match first_retailer retailers url_lower with
  | Some retailer => retailer
  | None => "google_shopping"%string
  end.

(** [any(kw in name_lower for kw in keywords)]. *)
Definition any_keyword (keywords : list string) (name_lower : string) : bool :=
  existsb (fun kw => contains kw name_lower) keywords.

Definition _get_min_price_for_product (product_name : string)
    (category : option string) : Q :=
  let name_lower := Py.lower product_name in
  if contains "iphone" name_lower then
    if any_keyword ["pro max"; "1tb"; "512gb"]%string name_lower then 1000.0
    else if contains "pro" name_lower then 800.0
    else 500.0
  else if any_keyword ["samsung galaxy"; "ultra"; "fold"]%string name_lower then 800.0
  else
    match category with
    | Some c =>
        if truthy_string c && contains "electronic" (Py.lower c) then 50.0 else 10.0
    | None => 10.0
    end.

(** The test that every extraction path of [scrape_google_shopping] applies to a
    candidate price: [price_val >= min_price and 10.0 <= price_val <= 100000]. *)
Definition scraper_accepts (price_val min_price : Q) : bool :=
  Py.ge price_val min_price && (Py.le 10.0 price_val && Py.le price_val 100000).

(** The last lines of [scrape_google_shopping]: the first occurrence of each
    (price, source) pair is kept, and at most 20 of them are returned. *)
Definition same_key (p q : ScrapedPrice) : bool :=
  Qeq_bool (sp_price p) (sp_price q) && String.eqb (sp_source p) (sp_source q).

Fixpoint unique_from (seen : list ScrapedPrice) (prices : list ScrapedPrice)
  : list ScrapedPrice :=
  match prices with
  | [] => []
  | p :: rest =>
      if existsb (same_key p) seen then unique_from seen rest
      else p :: unique_from (p :: seen) rest
  end.

Definition deduplicate (prices : list ScrapedPrice) : list ScrapedPrice :=
  firstn 20 (unique_from [] prices).




(** *** The cache *)

(** [self.cache]: a dict from the cache key to the scraped list and the time it was
    stored at.  Times are seconds; [cache_duration] is an hour. *)
Definition Cache : Type := list (string * (list ScrapedPrice * Q)).

Definition cache_duration : Q := 3600.

(** [self.cache.get(key)], [self.cache[key] = v] and [del self.cache[key]]. *)
Fixpoint cache_get (cache : Cache) (key : string) : option (list ScrapedPrice * Q) :=
  match cache with
  | [] => None
  | (k, v) :: rest => if String.eqb key k then Some v else cache_get rest key
  end.

Fixpoint cache_set (cache : Cache) (key : string) (v : list ScrapedPrice * Q) : Cache :=
  match cache with
  | [] => [(key, v)]
  | (k, w) :: rest =>
      if String.eqb key k then (k, v) :: rest else (k, w) :: cache_set rest key v
  end.

Fixpoint cache_del (cache : Cache) (key : string) : Cache :=
  match cache with
  | [] => []
  | (k, w) :: rest =>
      if String.eqb key k then cache_del rest key else (k, w) :: cache_del rest key
  end.

(** [_get_cached] at the time [now], and [_set_cache]. *)
Definition _get_cached (cache : Cache) (key : string) (now : Q)
  : option (list ScrapedPrice) :=
  match cache_get cache key with
  | Some (cached_data, timestamp) =>
      if Py.lt (now - timestamp) cache_duration then Some cached_data else None
  | None => None
  end.

Definition _set_cache (cache : Cache) (key : string) (data : list ScrapedPrice)
    (now : Q) : Cache :=
  cache_set cache key (data, now).

(** [f"{product_name}_{category or ''}"]. *)
Definition cache_key (product_name : string) (category : option string) : string :=
  (product_name ++ "_"
   ++ match category with
      | Some c => c
      | None => ""
      end)%string.

(** [scrape_all_sources]: [fresh] is what [scrape_google_shopping] returns if it is
    called, [now] the time read by [_get_cached] and [later] the one read by
    [_set_cache].  The answer comes with the new cache and with whether the page was
    scraped. *)
Definition scrape_all_sources (cache : Cache) (product_name : string)
    (category : option string) (force_refresh : bool)
    (fresh : list ScrapedPrice) (now later : Q)
  : list ScrapedPrice * Cache * bool :=
  let cache_key := cache_key product_name category in
  let scrape cache := (fresh, _set_cache cache cache_key fresh later, true) in
  if negb force_refresh then
    match _get_cached cache cache_key now with
    | Some cached =>
        if nonempty cached then (cached, cache, false) else scrape cache
    | None => scrape cache
    end
  else
    scrape (match cache_get cache cache_key with
            | Some _ => cache_del cache cache_key
            | None => cache
            end).

(** ** [products.py]: [scan_prices] *)

(** The answers of the endpoint once the product is found. *)
Inductive ScanResponse :=
| ScanNoMarketData                      (* 404, nothing scraped *)
| ScanNoValidData (sources_checked : nat)   (* 400, nothing validated *)
| ScanNoValidAverage (sources : nat)        (* 400, 'success': False *)
| ScanSuccess (averagePrice : Q) (priceRange : Q * Q * Q) (sources : nat)  (* 200 *)
| ScanFailed.                           (* 500, after a rollback *)

(** What a call leaves behind: its answer, the rows of [market_data] that were
    committed and the product's [competitor_price]. *)
Record ScanOutcome := mkScanOutcome {
  scan_response : ScanResponse;
  scan_saved : list MarketData;
  scan_competitor_price : option Q
}.

(** The row written for a validated price at the time of the scan. *)
Definition market_row (current_utc_time : Timestamp) (price_data : ScrapedPrice)
  : MarketData :=
  {| md_source := sp_source price_data;
     md_price := sp_price price_data;
     md_scraped_at := Some current_utc_time |}.

(** Lines 349-358: the prices that pass [_validate_scraped_price]. *)
Definition validated_prices (product : Product) (scraped_prices : list ScrapedPrice)
  : list ScrapedPrice :=
  filter
    (fun price_data =>
       _validate_scraped_price (sp_price price_data) (cost_price product)
         (current_price product) (Some (sp_source price_data)))
    scraped_prices.

(** Lines 400-407: the check of the average against the cost. *)
Definition average_cost_check (cost_price avg_price : Q) : option Q :=
  if Py.gt cost_price 0 then
    if Py.lt avg_price (cost_price * 0.5) then None
    else if Py.gt avg_price (cost_price * 10) && Py.gt cost_price 100 then None
    else Some avg_price
  else Some avg_price.

(** Lines 409-414: the check against the current price.  It compares [avg_price]
    with a float even when the previous check has set it to [None], which raises
    [TypeError]: the outer [None]. *)
Definition average_range_check (current_price : Q) (avg_price : option Q)
  : option (option Q) :=
  if Py.gt current_price 0 then
    match avg_price with
    | None => None
    | Some a =>
        let min_reasonable := current_price * 0.1 in
        let max_reasonable := current_price * 5.0 in
        if Py.lt a min_reasonable || Py.gt a max_reasonable
        then Some None else Some (Some a)
    end
  else Some avg_price.

(** [scan_prices] from the scraped list to the outcome.  [current_utc_time] is the
    time read once for all the rows of the scan. *)
Definition scan_prices (product : Product) (scraped_prices : list ScrapedPrice)
    (current_utc_time : Timestamp) : ScanOutcome :=
  let unchanged response :=
    {| scan_response := response; scan_saved := [];
       scan_competitor_price := competitor_price product |} in
  if negb (nonempty scraped_prices) then unchanged ScanNoMarketData
  else
    let validated_prices := validated_prices product scraped_prices in
    if negb (nonempty validated_prices)
    then unchanged (ScanNoValidData (List.length scraped_prices))
    else
      let rows := map (market_row current_utc_time) validated_prices in
      let prices_list := map sp_price validated_prices in
      let avg_price := Py.sum prices_list / Py.len prices_list in
      match Py.min_list prices_list, Py.max_list prices_list with
      | Some lo, Some hi =>
          let price_range := (lo, hi, avg_price) in
          let checked :=
            if truthy avg_price then
              average_range_check (current_price product)
                (average_cost_check (cost_price product) avg_price)
            else Some (Some avg_price) in
          match checked with
          | None => unchanged ScanFailed
          | Some (Some a) =>
              if truthy a then
                {| scan_response :=
                     ScanSuccess a price_range (List.length scraped_prices);
                   scan_saved := rows;
                   scan_competitor_price := Some a |}
              else
                {| scan_response := ScanNoValidAverage (List.length scraped_prices);
                   scan_saved := rows;
                   scan_competitor_price := competitor_price product |}
          | Some None =>
              {| scan_response := ScanNoValidAverage (List.length scraped_prices);
                 scan_saved := rows;
                 scan_competitor_price := competitor_price product |}
          end
      | _, _ => unchanged ScanFailed
      end.

(** ** [recommendations.py]: the life of a recommendation *)

(** A row of the [recommendations] table: its key, its product, its status and the
    columns that hold the output of the optimizer. *)
Record RecommendationRow := mkRow {
  rec_id : string;
  rec_product_id : string;
  rec_status : string;
  rec_output : Recommendation
}.

(** [Recommendation.query.filter_by(product_id=..., status='pending').first()]. *)
Definition is_pending_for (product_id : string) (row : RecommendationRow) : bool :=
  String.eqb (rec_product_id row) product_id && String.eqb (rec_status row) "pending".

Definition find_pending (table : list RecommendationRow) (product_id : string)
  : option RecommendationRow :=
  find (is_pending_for product_id) table.

(** The row found by that query, updated where it stands. *)
Fixpoint update_pending (table : list RecommendationRow) (product_id : string)
    (output : Recommendation) : list RecommendationRow :=
  match table with
  | [] => []
  | row :: rest =>
      if is_pending_for product_id row
      then {| rec_id := rec_id row;
              rec_product_id := rec_product_id row;
              rec_status := rec_status row;
              rec_output := output |} :: rest
      else row :: update_pending rest product_id output
  end.

(** Lines 126-137: the validation that [create_recommendation] applies to freshly
    scraped prices. *)
Definition creation_accepts (product : Product) (price_data : ScrapedPrice) : bool :=
  if Py.gt (cost_price product) 0
     && Py.lt (sp_price price_data) (cost_price product * 0.5)
  then false
  else if Py.gt (current_price product) 0 then
    let min_reasonable := current_price product * 0.1 in
    let max_reasonable := current_price product * 5.0 in
    if Py.lt (sp_price price_data) min_reasonable
       || Py.gt (sp_price price_data) max_reasonable
    then false else true
  else true.

(** [product.competitor_price] read as a condition. *)
Definition truthy_price (p : option Q) : bool :=
  match p with
  | Some x => truthy x
  | None => false
  end.

(** Lines 112-152: the competitor prices handed to the optimizer, the scraped
    prices saved on the way, and whether the scraper was called.  [scraped_prices]
    is what the scraper returns if it is. *)
Definition gather_prices (product : Product) (recent_market_data : list MarketData)
    (scraped_prices : list ScrapedPrice) : list Q * list ScrapedPrice * bool :=
  let competitor_prices :=
    if nonempty recent_market_data then map md_price recent_market_data
    else if truthy_price (competitor_price product) then
      match competitor_price product with
      | Some p => [p]
      | None => []
      end
    else [] in
  if negb (nonempty competitor_prices) then
    let validated_prices := filter (creation_accepts product) scraped_prices in
    if nonempty validated_prices
    then (map sp_price validated_prices, validated_prices, true)
    else (competitor_prices, [], true)
  else (competitor_prices, [], false).

(** The answer of [create_recommendation] once the product is found: the status
    code, the row returned, the table afterwards, the scraped prices saved as market
    data, and whether the scraper was called. *)
Record Creation := mkCreation {
  cr_code : nat;
  cr_row : RecommendationRow;
  cr_table : list RecommendationRow;
  cr_saved : list ScrapedPrice;
  cr_scraped : bool
}.

(** [new_id] is the key that [generate_id] gives to a new row. *)
Definition create_recommendation (table : list RecommendationRow) (product : Product)
    (recent_market_data : list MarketData) (scraped_prices : list ScrapedPrice)
    (new_id : string) : Creation :=
  let product_id := id product in
  let existing_rec := find_pending table product_id in
  let has_fresh_data :=
    nonempty recent_market_data && (0 <? List.length recent_market_data)%nat in
  let proceed :=
    let '(competitor_prices, saved, scraped) :=
      gather_prices product recent_market_data scraped_prices in
    let optimization := optimize_price product competitor_prices in
    match existing_rec with
    | Some row =>
        {| cr_code := 200;
           cr_row := {| rec_id := rec_id row;
                        rec_product_id := rec_product_id row;
                        rec_status := rec_status row;
                        rec_output := optimization |};
           cr_table := update_pending table product_id optimization;
           cr_saved := saved;
           cr_scraped := scraped |}
    | None =>
        let recommendation :=
          {| rec_id := new_id;
             rec_product_id := product_id;
             rec_status := "pending";
             rec_output := optimization |} in
        {| cr_code := 201;
           cr_row := recommendation;
           cr_table := table ++ [recommendation];
           cr_saved := saved;
           cr_scraped := scraped |}
    end in
  match existing_rec with
  | Some row =>
      if has_fresh_data then proceed
      else {| cr_code := 200; cr_row := row; cr_table := table;
              cr_saved := []; cr_scraped := false |}
  | None => proceed
  end.

(** [update_recommendation] once the row is found.  The request body gives
    ['status'] (or not) and ['applyPrice']; the products are those of the table,
    found by key. *)
Definition apply_price (products : list Product) (product_id : string) (price : Q)
  : list Product :=
  map (fun p =>
         if String.eqb (id p) product_id
         then {| id := id p; name := name p; sku := sku p; category := category p;
                 cost_price := cost_price p; current_price := price;
                 competitor_price := competitor_price p;
                 sales_velocity := sales_velocity p |}
         else p)
      products.

Definition update_recommendation (products : list Product)
    (recommendation : RecommendationRow) (status : option string) (applyPrice : bool)
  : list Product * RecommendationRow :=
  let products :=
    match status with
    | Some s =>
        if String.eqb s "applied" && applyPrice
        then apply_price products (rec_product_id recommendation)
               (suggestedPrice (rec_output recommendation))
        else products
    | None => products
    end in
  let recommendation :=
    match status with
    | Some s =>
        {| rec_id := rec_id recommendation;
           rec_product_id := rec_product_id recommendation;
           rec_status := s;
           rec_output := rec_output recommendation |}
    | None => recommendation
    end in
  (products, recommendation).

(** ** [main.py]: the metrics of [dashboard_data] *)

(** The margin of a product, in percent of its current price. *)
Definition margin_percent (p : Product) : Q :=
  (current_price p - cost_price p) / current_price p * 100.

(** Lines 78-90: [avg_margin].  The columns are not nullable, so that
    [p.cost_price is not None] always holds. *)
Definition avg_margin (products : list Product) : Q :=
  if nonempty products then
    let products_with_valid_prices :=
      filter (fun p => truthy (current_price p) && Py.gt (current_price p) 0)
             products in
    if nonempty products_with_valid_prices then
      let total_margin := Py.sum (map margin_percent products_with_valid_prices) in
      total_margin / Py.len products_with_valid_prices
    else 0
  else 0.

(** Lines 103-110: [potential_uplift] over the [revenue_impact] column (which may be
    null) of the pending recommendations. *)
Definition potential_uplift (revenue_impacts : list (option Q)) : Q :=
  fold_left
    (fun potential_uplift revenue_impact =>
       match revenue_impact with
       | Some x =>
           if truthy x && Py.gt x 0 then potential_uplift + x else potential_uplift
       | None => potential_uplift
       end)
    revenue_impacts 0.

(** The part of the ['metrics'] that is computed from the prices and the impacts. *)
Record Metrics := mkMetrics {
  totalProducts : nat;
  avgMargin : Q;
  pendingRecommendations : nat;
  potentialUplift : Q
}.

Definition dashboard_metrics (products : list Product)
    (pending_revenue_impacts : list (option Q)) : Metrics :=
  {| totalProducts := List.length products;
     avgMargin := Py.round (avg_margin products) 1;
     pendingRecommendations := List.length pending_revenue_impacts;
     potentialUplift := Py.round (potential_uplift pending_revenue_impacts) 2 |}.

(** ** Vocabulary of the statements *)


(** [m] is a least (greatest) element of [l]. *)
Definition least (l : list Q) (m : Q) : Prop :=
  In m l /\ forall p, In p l -> m <= p.

Definition greatest (l : list Q) (m : Q) : Prop :=
  In m l /\ forall p, In p l -> p <= m.

(** A number with at most [n] decimals, at most half a unit of the last one away
    from [x]. *)
Definition rounded_to (n : nat) (x r : Q) : Prop :=
  (exists k : Z, r == inject_Z k / inject_Z (10 ^ Z.of_nat n))
  /\ x - (1 # 2) / inject_Z (10 ^ Z.of_nat n) <= r
  /\ r <= x + (1 # 2) / inject_Z (10 ^ Z.of_nat n).

(** The closed-form candidate of lines 348-360 when nothing is raised: its price,
    demand and profit. *)
Definition candidate (rpow : Q -> Q -> Q) (cost current base_demand elasticity : Q)
  : Q * Q * Q :=
  let formula := cost * elasticity / (elasticity - 1.0) in
  let price := Py.min (Py.max (cost * 1.1) formula) (current * 2.0) in
  let ratio := if Py.gt price 0 then current / price else 1 in
  let demand :=
    Py.max 0 (Py.min (base_demand * rpow ratio elasticity) (base_demand * 3)) in
  (price, demand, demand * (price - cost)).

(** The rows of a scan session: those scraped at the date and hour [k], in the order
    of the query. *)
Definition in_session (k : SessionKey) (md : MarketData) : bool :=
  match md_scraped_at md with
  | Some t => key_eqb (session_key t) k
  | None => false
  end.

Definition session_rows (k : SessionKey) (market_data : list MarketData)
  : list MarketData :=
  filter (in_session k) market_data.

(** A session is earlier than another. *)
Definition earlier (a b : SessionKey) : Prop := key_ltb a b = true.

(** [s] is the summary of the rows of one session: it carries the timestamp of the
    first row, and the average, minimum, maximum and number of the prices and the
    number of distinct sources. *)
Definition summarizes (rows : list MarketData) (s : SessionSummary) : Prop :=
  let prices := map md_price rows in
  (exists first rest,
      rows = first :: rest /\ md_scraped_at first = Some (s_timestamp s))
  /\ s_date s = date_of (s_timestamp s)
  /\ s_average s = Py.sum prices / Py.len prices
  /\ least prices (s_min s)
  /\ greatest prices (s_max s)
  /\ s_count s = List.length rows
  /\ s_sources s = List.length (nodup string_dec (map md_source rows)).

(** A row with a timestamp: one that some session holds. *)
Definition has_timestamp (md : MarketData) : bool :=
  match md_scraped_at md with
  | Some _ => true
  | None => false
  end.

(** The number of pending recommendations of a product in the table. *)
Definition pending_count (table : list RecommendationRow) (product_id : string) : nat :=
  List.length (filter (is_pending_for product_id) table).

(** * Properties *)

(** ** Comparisons *)

Lemma lt_true a b : Py.lt a b = true <-> a < b.
Proof.
  unfold Py.lt. rewrite negb_true_iff, <- not_true_iff_false, Qle_bool_iff.
  split; [apply Qnot_le_lt | apply Qlt_not_le].
Qed.

Lemma lt_false a b : Py.lt a b = false <-> b <= a.
Proof.
  unfold Py.lt. rewrite negb_false_iff. apply Qle_bool_iff.
Qed.

Lemma le_true a b : Py.le a b = true <-> a <= b.
Proof. apply Qle_bool_iff. Qed.

Lemma le_false a b : Py.le a b = false <-> b < a.
Proof.
  unfold Py.le. rewrite <- not_true_iff_false, Qle_bool_iff.
  split; [apply Qnot_le_lt | apply Qlt_not_le].
Qed.

Lemma gt_true a b : Py.gt a b = true <-> b < a.
Proof. apply lt_true. Qed.

Lemma gt_false a b : Py.gt a b = false <-> a <= b.
Proof. apply lt_false. Qed.

Lemma ge_true a b : Py.ge a b = true <-> b <= a.
Proof. apply le_true. Qed.

Lemma ge_false a b : Py.ge a b = false <-> a < b.
Proof. apply le_false. Qed.

(** [py_case c] splits on the comparison [c] and records the order it decides. *)
Ltac py_case c :=
  let E := fresh "E" in
  destruct c eqn:E;
  [ first [ apply lt_true in E | apply le_true in E
          | apply gt_true in E | apply ge_true in E ]
  | first [ apply lt_false in E | apply le_false in E
          | apply gt_false in E | apply ge_false in E ] ].

Ltac py_cases :=
  repeat match goal with
         | |- context [Py.lt ?a ?b] => py_case (Py.lt a b)
         | |- context [Py.gt ?a ?b] => py_case (Py.gt a b)
         | |- context [Py.le ?a ?b] => py_case (Py.le a b)
         | |- context [Py.ge ?a ?b] => py_case (Py.ge a b)
         end.

(** ** The elasticity estimate *)

Lemma in_luxury cat :
  Py.in_list cat luxury_categories = Reference.is_luxury cat.
Proof.
  unfold Py.in_list, luxury_categories, Reference.is_luxury. simpl.
  now rewrite orb_false_r.
Qed.

(** The value before the clamp is one of twelve sums, all within [[0.7, 2.0]]. *)
Lemma before_clamp_range product current_margin :
  0.7 <= elasticity_before_clamp product current_margin <= 2.0.
Proof.
  unfold elasticity_before_clamp; cbv zeta.
  destruct (Py.in_list _ _), (Py.gt current_margin 50), (Py.lt current_margin 30),
    (Py.gt (sales_velocity product) 50); split; lra.
Qed.

Lemma clamp_inactive product current_margin :
  _estimate_elasticity product current_margin
  = elasticity_before_clamp product current_margin.
Proof.
  unfold _estimate_elasticity.
  pose proof (before_clamp_range product current_margin) as [Hlo Hhi].
  unfold Py.max, Py.min. py_cases; try reflexivity; lra.
Qed.

(** C4: the estimate equals the reference definition (base 1.5, -0.3 for a luxury
    category, -0.5 above a 50% margin or else +0.3 below 30%, +0.2 above a velocity
    of 50, clamped to [[0.5, 3.0]]); it always lies in [[0.5, 3.0]]; and
    "Loungewear" at a margin of 55% and a velocity of 10 gives exactly 0.7. *)
Theorem estimate_elasticity_reference :
  forall (product : Product) (current_margin : Q),
    _estimate_elasticity product current_margin
    == Reference.estimate (category product) current_margin (sales_velocity product)
    /\ 0.5 <= _estimate_elasticity product current_margin <= 3.0
    /\ (forall i n s c p o,
          _estimate_elasticity (mkProduct i n s "Loungewear" c p o 10) 55 == 0.7).
Proof.
  intros product current_margin. split; [| split].
  - unfold _estimate_elasticity, elasticity_before_clamp, Reference.estimate,
      Reference.category_adjustment, Reference.margin_adjustment,
      Reference.velocity_adjustment.
    rewrite in_luxury.
    destruct (Reference.is_luxury _), (Py.gt current_margin 50),
      (Py.lt current_margin 30), (Py.gt (sales_velocity product) 50);
      vm_compute; reflexivity.
  - rewrite clamp_inactive.
    pose proof (before_clamp_range product current_margin). lra.
  - intros. vm_compute. reflexivity.
Qed.

(** C10: the estimate always lies in [[0.7, 2.0]], and the final clamp returns the sum
    of the base and the adjustments unchanged. *)
Theorem estimate_elasticity_tight :
  forall (product : Product) (current_margin : Q),
    0.7 <= _estimate_elasticity product current_margin <= 2.0
    /\ _estimate_elasticity product current_margin
       = elasticity_before_clamp product current_margin
    /\ elasticity_before_clamp product current_margin
       == 1.5 + Reference.category_adjustment (category product)
          + Reference.margin_adjustment current_margin
          + Reference.velocity_adjustment (sales_velocity product).
Proof.
  intros product current_margin. rewrite clamp_inactive. split; [| split].
  - apply before_clamp_range.
  - reflexivity.
  - unfold elasticity_before_clamp; cbv zeta; unfold Reference.category_adjustment,
      Reference.margin_adjustment, Reference.velocity_adjustment.
    rewrite in_luxury.
    destruct (Reference.is_luxury _), (Py.gt current_margin 50),
      (Py.lt current_margin 30), (Py.gt (sales_velocity product) 50); lra.
Qed.

(** ** Rounding *)

Lemma floor_bounds x :
  inject_Z (Qfloor x) <= x /\ x < inject_Z (Qfloor x) + 1.
Proof.
  split; [apply Qfloor_le |].
  pose proof (Qlt_floor x) as H. rewrite inject_Z_plus in H. exact H.
Qed.

(** [round(x)] is an integer within a half of [x]. *)
Lemma round_int_near x :
  x - (1 # 2) <= inject_Z (Py.round_int x) <= x + (1 # 2).
Proof.
  destruct (floor_bounds x) as [Hlo Hhi].
  unfold Py.round_int; cbv zeta.
  py_cases; try destruct (Z.even _); rewrite ?inject_Z_plus;
    change (inject_Z 1) with 1; split; lra.
Qed.

Lemma inject_Z_le_iff a b : inject_Z a <= inject_Z b <-> (a <= b)%Z.
Proof. rewrite <- Zle_Qle. reflexivity. Qed.

Lemma inject_Z_lt_iff a b : inject_Z a < inject_Z b <-> (a < b)%Z.
Proof. rewrite <- Zlt_Qlt. reflexivity. Qed.

(** [round] keeps the order. *)
Lemma round_int_mono x y : x <= y -> (Py.round_int x <= Py.round_int y)%Z.
Proof.
  intros Hxy.
  pose proof (Qfloor_resp_le _ _ Hxy) as Hf.
  destruct (floor_bounds x) as [Hx1 Hx2].
  destruct (floor_bounds y) as [Hy1 Hy2].
  destruct (Z.eq_dec (Qfloor x) (Qfloor y)) as [E | N].
  - unfold Py.round_int; cbv zeta. rewrite <- E.
    py_cases; try destruct (Z.even _); try lia; lra.
  - assert (Qfloor x + 1 <= Qfloor y)%Z as Hs by lia.
    assert (Py.round_int x <= Qfloor x + 1)%Z as Ha.
    { unfold Py.round_int; cbv zeta. py_cases; try destruct (Z.even _); lia. }
    assert (Qfloor y <= Py.round_int y)%Z as Hb.
    { unfold Py.round_int; cbv zeta. py_cases; try destruct (Z.even _); lia. }
    lia.
Qed.

Lemma scale_pos n : 0 < inject_Z (10 ^ Z.of_nat n).
Proof.
  change 0 with (inject_Z 0). apply inject_Z_lt_iff.
  apply Z.pow_pos_nonneg; lia.
Qed.

Lemma round_mono x y n : x <= y -> Py.round x n <= Py.round y n.
Proof.
  intros Hxy. unfold Py.round; cbv zeta.
  pose proof (scale_pos n) as Hs.
  apply Qmult_le_compat_r.
  - apply inject_Z_le_iff, round_int_mono.
    apply Qmult_le_compat_r; lra.
  - apply Qinv_le_0_compat. lra.
Qed.

(** A value with at most [n] decimals. *)
Lemma round_decimals x n :
  Py.round x n == inject_Z (Py.round_int (x * inject_Z (10 ^ Z.of_nat n)))
                  / inject_Z (10 ^ Z.of_nat n).
Proof. reflexivity. Qed.

Lemma round_near x n :
  let half_unit := (1 # 2) / inject_Z (10 ^ Z.of_nat n) in
  x - half_unit <= Py.round x n <= x + half_unit.
Proof.
  cbv zeta. unfold Py.round; cbv zeta.
  pose proof (scale_pos n) as Hs.
  set (s := inject_Z (10 ^ Z.of_nat n)) in *.
  pose proof (round_int_near (x * s)) as [Hlo Hhi].
  set (k := inject_Z (Py.round_int (x * s))) in *.
  assert (x == (x * s) / s) as Hx by (field; lra).
  split.
  - apply Qle_shift_div_l; [exact Hs |].
    assert ((x - (1 # 2) / s) * s == x * s - (1 # 2)) as -> by (field; lra).
    exact Hlo.
  - apply Qle_shift_div_r; [exact Hs |].
    assert ((x + (1 # 2) / s) * s == x * s + (1 # 2)) as -> by (field; lra).
    exact Hhi.
Qed.

Lemma round_rounded_to x n : rounded_to n x (Py.round x n).
Proof.
  pose proof (round_near x n) as H. cbv zeta in H.
  split; [eexists; apply round_decimals | exact H].
Qed.

(** ** [optimize_price]: the market statistics *)

Lemma fold_min_least t : forall x,
  least (x :: t) (fold_left (fun m y => if Py.lt y m then y else m) t x).
Proof.
  induction t as [| y t IH]; intros x.
  - simpl. split; [now left | intros p [<- | []]; lra].
  - simpl fold_left. py_case (Py.lt y x).
    + destruct (IH y) as [Hin Hle]. split.
      * right. exact Hin.
      * intros p [<- | Hp]; [| now apply Hle].
        specialize (Hle y (or_introl eq_refl)). lra.
    + destruct (IH x) as [Hin Hle]. split.
      * destruct Hin as [<- | Hin]; [now left | right; now right].
      * intros p [<- | [<- | Hp]].
        -- apply Hle. now left.
        -- specialize (Hle x (or_introl eq_refl)). lra.
        -- apply Hle. now right.
Qed.

Lemma fold_max_greatest t : forall x,
  greatest (x :: t) (fold_left (fun m y => if Py.gt y m then y else m) t x).
Proof.
  induction t as [| y t IH]; intros x.
  - simpl. split; [now left | intros p [<- | []]; lra].
  - simpl fold_left. py_case (Py.gt y x).
    + destruct (IH y) as [Hin Hle]. split.
      * right. exact Hin.
      * intros p [<- | Hp]; [| now apply Hle].
        specialize (Hle y (or_introl eq_refl)). lra.
    + destruct (IH x) as [Hin Hle]. split.
      * destruct Hin as [<- | Hin]; [now left | right; now right].
      * intros p [<- | [<- | Hp]].
        -- apply Hle. now left.
        -- specialize (Hle x (or_introl eq_refl)). lra.
        -- apply Hle. now right.
Qed.

Lemma min_list_least l : l <> [] -> exists m, Py.min_list l = Some m /\ least l m.
Proof.
  destruct l as [| x t]; [congruence | intros _].
  eexists; split; [reflexivity | apply fold_min_least].
Qed.

Lemma max_list_greatest l :
  l <> [] -> exists m, Py.max_list l = Some m /\ greatest l m.
Proof.
  destruct l as [| x t]; [congruence | intros _].
  eexists; split; [reflexivity | apply fold_max_greatest].
Qed.

Lemma nonempty_true {A} (l : list A) : nonempty l = true <-> l <> [].
Proof. destruct l; simpl; split; congruence. Qed.

Lemma nonempty_false {A} (l : list A) : nonempty l = false <-> l = [].
Proof. destruct l; simpl; split; congruence. Qed.




(** ** [optimize_price]: the margin floor *)

(** The three outcomes of the floor. *)
Lemma margin_floor_spec cost_price d :
  (cost_price * 1.2 <= d_suggested_price d /\ margin_floor cost_price d = d)
  \/ (d_suggested_price d < cost_price * 1.2
      /\ cost_price * 1.1 <= d_suggested_price d
      /\ margin_floor cost_price d
         = {| d_suggested_price := cost_price * 1.2;
              d_strategy := d_strategy d;
              d_rationale := (d_rationale d ++ floor_note)%string;
              d_confidence_score := d_confidence_score d;
              d_risk_level := "medium";
              d_market_position := d_market_position d |})
  \/ (d_suggested_price d < cost_price * 1.2
      /\ d_suggested_price d < cost_price * 1.1
      /\ margin_floor cost_price d
         = {| d_suggested_price := d_suggested_price d;
              d_strategy := d_strategy d;
              d_rationale := (d_rationale d ++ floor_warning)%string;
              d_confidence_score := d_confidence_score d;
              d_risk_level := "high";
              d_market_position := d_market_position d |}).
Proof.
  unfold margin_floor; cbv zeta.
  py_case (Py.lt (d_suggested_price d) (cost_price * 1.2)).
  - py_case (Py.ge (d_suggested_price d) (cost_price * 1.1)).
    + right; left. auto.
    + right; right. auto.
  - left. auto.
Qed.



(** ** [optimize_price]: no sample *)


(** ** [optimize_price]: the rounding of the outputs *)

Lemma round_int_rounded_to x : rounded_to 0 x (inject_Z (Py.round_int x)).
Proof.
  pose proof (round_int_near x) as [Hlo Hhi].
  unfold rounded_to. change (inject_Z (10 ^ Z.of_nat 0)) with 1.
  assert ((1 # 2) / 1 == 1 # 2) as -> by reflexivity.
  split; [exists (Py.round_int x); field | split; lra].
Qed.

(** C8: the suggested price and the competitor minimum and maximum are returned
    rounded to 2 decimals and the predicted margin to 1 decimal; the revenue impact
    is returned rounded to the nearest integer. *)
Theorem outputs_rounded :
  forall (product : Product) (competitor_prices : list Q),
    let u := unrounded product competitor_prices in
    let r := optimize_price product competitor_prices in
    rounded_to 2 (u_suggested_price u) (suggestedPrice r)
    /\ rounded_to 2 (u_min_competitor_price u) (competitorMinPrice r)
    /\ rounded_to 2 (u_max_competitor_price u) (competitorMaxPrice r)
    /\ rounded_to 1 (u_predicted_margin u) (predictedMargin r)
    /\ rounded_to 0 (u_revenue_impact u) (inject_Z (revenueImpact r))
    /\ u_revenue_impact u
       == sales_velocity product
          * (u_suggested_price u - current_price product) * 4
    /\ (0 < u_suggested_price u ->
          u_predicted_margin u
          == (u_suggested_price u - cost_price product) / u_suggested_price u * 100)
    /\ (u_suggested_price u <= 0 -> u_predicted_margin u == 0).
Proof.
  intros product competitor_prices u r.
  split; [apply round_rounded_to |].
  split; [apply round_rounded_to |].
  split; [apply round_rounded_to |].
  split; [apply round_rounded_to |].
  split; [apply round_int_rounded_to |].
  split; [| split].
  - reflexivity.
  - intros Hpos. subst u. unfold unrounded; cbv zeta. simpl u_predicted_margin.
    simpl u_suggested_price in *.
    apply gt_true in Hpos. rewrite Hpos. reflexivity.
  - intros Hle. subst u. unfold unrounded; cbv zeta. simpl u_predicted_margin.
    simpl u_suggested_price in *.
    apply gt_false in Hle. rewrite Hle. reflexivity.
Qed.



(** C8, as stated, fails on the revenue impact: at a velocity of 1, a current price
    of 10 and one sample of 10.1 the impact is 0.4, returned as 0 and not as 0.4. *)
Lemma revenue_impact_not_two_decimals :
  let product := mkProduct "p1" "Robe" "R-1" "Other" 5 10 None 1 in
  let u := unrounded product [10.1] in
  let r := optimize_price product [10.1] in
  u_revenue_impact u == 0.4
  /\ Py.round (u_revenue_impact u) 2 == 0.4
  /\ revenueImpact r = 0%Z
  /\ ~ inject_Z (revenueImpact r) == Py.round (u_revenue_impact u) 2.
Proof.
  vm_compute. repeat split; try reflexivity. intros H. discriminate H.
Qed.

(** ** [_validate_scraped_price] *)

Lemma positive_check x : truthy x && Py.gt x 0 = Py.gt x 0.
Proof.
  unfold truthy. destruct (Qeq_bool x 0) eqn:E; [| reflexivity].
  apply Qeq_bool_iff in E. simpl. symmetry. apply gt_false. lra.
Qed.





(** ** [calculate_elasticity_curve] *)

Lemma for_each_total {A B} (f : A -> option B) (g : A -> B) (l : list A) :
  (forall a, In a l -> f a = Some (g a)) -> for_each f l = Some (map g l).
Proof.
  induction l as [| a l IH]; intros H; simpl.
  - reflexivity.
  - rewrite (H a (or_introl eq_refl)). simpl.
    rewrite IH by (intros b Hb; apply H; now right). reflexivity.
Qed.

Lemma for_each_length {A B} (f : A -> option B) (l : list A) bs :
  for_each f l = Some bs -> List.length bs = List.length l.
Proof.
  revert bs. induction l as [| a l IH]; simpl; intros bs H.
  - now inversion H.
  - destruct (f a); simpl in H; [| discriminate].
    destruct (for_each f l) eqn:E; simpl in H; [| discriminate].
    inversion H; subst. simpl. f_equal. now apply IH.
Qed.

Section PowerFacts.

Variable rpow : Q -> Q -> Q.

(** On a positive base the power is a float. *)
Lemma pow_positive x y : 0 < x -> pow rpow x y = Some (rpow x y).
Proof.
  intros Hx. unfold pow.
  replace (Py.lt x 0) with false by (symmetry; apply lt_false; lra).
  replace (Qeq_bool x 0) with false; [reflexivity |].
  symmetry. apply not_true_iff_false. rewrite Qeq_bool_iff. lra.
Qed.

Lemma demand_at_positive current_price base_demand elasticity price :
  0 < current_price -> 0 < price ->
  demand_at rpow current_price base_demand elasticity price
  = Some (Py.max 0 (Py.min (base_demand * rpow (current_price / price) elasticity)
                           (base_demand * 3))).
Proof.
  intros Hc Hp. unfold demand_at; cbv zeta.
  apply gt_true in Hp as Hg. rewrite Hg.
  rewrite pow_positive; [reflexivity |].
  apply Qlt_shift_div_l; lra.
Qed.

End PowerFacts.

Lemma of_nat_bounds i : (i < num_points)%nat -> 0 <= of_nat i <= 19.
Proof.
  unfold num_points, of_nat. intros Hi.
  change 0 with (inject_Z 0). change 19 with (inject_Z 19).
  rewrite !inject_Z_le_iff. lia.
Qed.

Lemma fraction_bounds i :
  (i < num_points)%nat -> 0 <= of_nat i / of_nat (num_points - 1) <= 1.
Proof.
  intros Hi. pose proof (of_nat_bounds i Hi) as [Hlo Hhi].
  change (of_nat (num_points - 1)) with 19. split.
  - apply Qle_shift_div_l; lra.
  - apply Qle_shift_div_r; lra.
Qed.

(** Every price of the range lies between its two ends. *)
Lemma price_at_between lo hi i :
  (i < num_points)%nat ->
  (lo <= price_at lo hi i <= hi) \/ (hi <= price_at lo hi i <= lo).
Proof.
  intros Hi. pose proof (fraction_bounds i Hi) as [H0 H1].
  unfold price_at. set (t := of_nat i / of_nat (num_points - 1)) in *.
  destruct (Qlt_le_dec hi lo) as [Hlt | Hle].
  - right. split; nra.
  - left. split; nra.
Qed.

Lemma price_at_first lo hi : price_at lo hi 0 == lo.
Proof. unfold price_at. change (of_nat 0 / of_nat (num_points - 1)) with (0 / 19). field. Qed.

Lemma price_at_last lo hi : price_at lo hi 19 == hi.
Proof.
  unfold price_at. change (of_nat 19 / of_nat (num_points - 1)) with (19 / 19).
  field.
Qed.

Lemma price_at_step lo hi i :
  price_at lo hi (S i) - price_at lo hi i == (hi - lo) / 19.
Proof.
  unfold price_at, of_nat. change (inject_Z (Z.of_nat (num_points - 1))) with 19.
  rewrite Nat2Z.inj_succ. unfold Z.succ. rewrite inject_Z_plus.
  change (inject_Z 1) with 1. field.
Qed.

Lemma clamp_reference d b :
  0 <= b -> Py.max 0 (Py.min d (b * 3)) == Reference.clamp 0 (b * 3) d.
Proof.
  intros Hb. unfold Py.max, Py.min, Reference.clamp. py_cases; lra.
Qed.

Lemma min_price_positive cost current_price :
  0 < current_price -> 0 < Py.max (cost * 0.8) (current_price * 0.5).
Proof. intros H. unfold Py.max. py_cases; lra. Qed.

Lemma max_price_value current_price :
  0 < current_price ->
  Py.min (current_price * 2.0) (current_price * 1.5) = current_price * 1.5.
Proof. intros H. unfold Py.min. py_cases; [reflexivity | lra]. Qed.

(** For a positive current price no iteration of the loop raises. *)
Lemma curve_explicit (rpow : Q -> Q -> Q) (product : Product)
    (current_price suggested_price base_demand : Q) :
  0 < current_price ->
  let elasticity :=
    _estimate_elasticity product
      (current_margin_of (cost_price product) current_price) in
  let min_price := Py.max (cost_price product * 0.8) (current_price * 0.5) in
  let max_price := Py.min (current_price * 2.0) (current_price * 1.5) in
  let price := price_at min_price max_price in
  let demand i :=
    Py.max 0 (Py.min (base_demand * rpow (current_price / price i) elasticity)
                     (base_demand * 3)) in
  (forall i, (i < 20)%nat -> 0 < price i)
  /\ calculate_elasticity_curve rpow product current_price suggested_price base_demand
     = Some (map (fun i => {| pt_price := Py.round (price i) 2;
                              pt_demand := Py.round (demand i) 1 |})
                 (seq 0 num_points)).
Proof.
  intros Hpos elasticity min_price max_price price demand.
  assert (0 < min_price) as Hmin by (apply min_price_positive; exact Hpos).
  assert (0 < max_price) as Hmax
    by (subst max_price; rewrite max_price_value by exact Hpos; lra).
  assert (forall i, (i < 20)%nat -> 0 < price i) as Hprice.
  { intros i Hi. destruct (price_at_between min_price max_price i Hi) as [H | H];
      fold price in H; lra. }
  split; [exact Hprice |].
  unfold calculate_elasticity_curve; cbv zeta.
  apply for_each_total. intros i Hi. apply in_seq in Hi.
  fold elasticity min_price max_price price.
  rewrite demand_at_positive; [reflexivity | exact Hpos |].
  apply Hprice. unfold num_points in Hi. lia.
Qed.

(** C6: for a positive current price the curve has exactly 20 points.  Before it
    is rounded, the price of point [i] is [min + (max - min) x i / 19] with
    [min = max(cost x 0.8, current x 0.5)] and
    [max = min(current x 2.0, current x 1.5) = current x 1.5], so that the unrounded
    prices are equally spaced and include both ends, and its demand is
    [baseDemand x (current / price) ^ elasticity] clamped to
    [[0, baseDemand x 3]]; the point returned holds that price rounded to 2 decimals
    and that demand rounded to 1 decimal. *)
Theorem elasticity_curve_points :
  forall (rpow : Q -> Q -> Q) (product : Product)
         (current_price suggested_price base_demand : Q),
    0 < current_price ->
    let elasticity :=
      _estimate_elasticity product
        (current_margin_of (cost_price product) current_price) in
    let min_price := Py.max (cost_price product * 0.8) (current_price * 0.5) in
    let max_price := Py.min (current_price * 2.0) (current_price * 1.5) in
    let price := price_at min_price max_price in
    let raw_demand i := base_demand * rpow (current_price / price i) elasticity in
    let demand i := Py.max 0 (Py.min (raw_demand i) (base_demand * 3)) in
    exists curve,
      calculate_elasticity_curve rpow product current_price suggested_price
        base_demand = Some curve
      /\ List.length curve = 20%nat
      /\ (forall i, (i < 20)%nat ->
            nth_error curve i
            = Some {| pt_price := Py.round (price i) 2;
                      pt_demand := Py.round (demand i) 1 |})
      /\ price 0%nat == min_price
      /\ price 19%nat == max_price
      /\ (forall i, price (S i) - price i == (max_price - min_price) / 19)
      /\ max_price = current_price * 1.5
      /\ (forall i, (i < 20)%nat -> 0 < price i)
      /\ (0 <= base_demand ->
          forall i, demand i == Reference.clamp 0 (base_demand * 3) (raw_demand i)).
Proof.
  intros rpow product current_price suggested_price base_demand Hpos
    elasticity min_price max_price price raw_demand demand.
  assert (max_price = current_price * 1.5) as Hmax
    by (apply max_price_value; exact Hpos).
  destruct (curve_explicit rpow product current_price suggested_price base_demand Hpos)
    as [Hprice Hcurve].
  fold elasticity min_price max_price price raw_demand demand in Hprice, Hcurve.
  set (point i := {| pt_price := Py.round (price i) 2;
                     pt_demand := Py.round (demand i) 1 |}).
  exists (map point (seq 0 num_points)).
  split; [| split; [| split; [| split; [| split; [| split; [| split; [| split]]]]]]].
  - exact Hcurve.
  - rewrite length_map, length_seq. reflexivity.
  - intros i Hi. rewrite nth_error_map, nth_error_seq.
    replace (i <? num_points)%nat with true; [reflexivity |].
    symmetry. apply Nat.ltb_lt. exact Hi.
  - apply price_at_first.
  - apply price_at_last.
  - intros i. apply price_at_step.
  - exact Hmax.
  - exact Hprice.
  - intros Hb i. apply clamp_reference. exact Hb.
Qed.

(** At cost 0, current price 1 and base demand 100 the elasticity is 1, and the curve
    starts at the rounded prices 0.5, 0.55 and 0.61. *)
Lemma elasticity_curve_points_witness :
  0 < 1
  /\ exists curve,
       calculate_elasticity_curve pow_integer
         (mkProduct "p1" "Robe" "R-1" "Other" 0 1 None 10) 1 1 100 = Some curve
       /\ List.length curve = 20%nat.
Proof.
  split; [reflexivity |].
  destruct (elasticity_curve_points pow_integer
              (mkProduct "p1" "Robe" "R-1" "Other" 0 1 None 10) 1 1 100 eq_refl)
    as (curve & Hc & Hl & _).
  exists curve. split; [exact Hc | exact Hl].
Defined.

(** C6, as stated, fails on the returned points: at cost 0, current price 1 and base
    demand 100 (elasticity 1) the second point is returned with price 0.55 and demand
    181, where the equally spaced price is 21/38 and the demand at it 3800/21; and
    the returned prices 0.5, 0.55, 0.61 are not equally spaced. *)
Lemma curve_points_are_rounded :
  let product := mkProduct "p1" "Robe" "R-1" "Other" 0 1 None 10 in
  exists p0 p1 p2 rest,
    calculate_elasticity_curve pow_integer product 1 1 100
    = Some (p0 :: p1 :: p2 :: rest)
    /\ _estimate_elasticity product (current_margin_of 0 1) == 1
    /\ pt_price p0 == 0.5 /\ pt_price p1 == 0.55 /\ pt_price p2 == 0.61
    /\ ~ pt_price p1 - pt_price p0 == pt_price p2 - pt_price p1
    /\ ~ pt_price p1 == 0.5 + (1.5 - 0.5) * (1 / 19)
    /\ pt_demand p1 == 181
    /\ ~ pt_demand p1 == 100 * (1 / (0.5 + (1.5 - 0.5) * (1 / 19))).
Proof.
  cbv zeta. eexists _, _, _, _. split; [vm_compute; reflexivity |].
  vm_compute. repeat split; try reflexivity; intros H; discriminate H.
Qed.

(** ** [get_elasticity_curve]: the optimal price *)

Lemma fold_profit_greatest t : forall x,
  let best :=
    fold_left (fun m y => if Py.gt (cm_profit y) (cm_profit m) then y else m) t x in
  In best (x :: t) /\ forall m, In m (x :: t) -> cm_profit m <= cm_profit best.
Proof.
  induction t as [| y t IH]; intros x; cbv zeta.
  - simpl. split; [now left | intros m [<- | []]; lra].
  - simpl fold_left. py_case (Py.gt (cm_profit y) (cm_profit x)).
    + destruct (IH y) as [Hin Hle]. split.
      * right. exact Hin.
      * intros m [<- | Hm]; [| now apply Hle].
        specialize (Hle y (or_introl eq_refl)). lra.
    + destruct (IH x) as [Hin Hle]. split.
      * destruct Hin as [<- | Hin]; [now left | right; now right].
      * intros m [<- | [<- | Hm]].
        -- apply Hle. now left.
        -- specialize (Hle x (or_introl eq_refl)). lra.
        -- apply Hle. now right.
Qed.

Lemma discrete_max_greatest curve :
  curve <> [] ->
  exists best, discrete_max curve = Some best
               /\ In best curve
               /\ forall m, In m curve -> cm_profit m <= cm_profit best.
Proof.
  destruct curve as [| x t]; [congruence | intros _].
  eexists; split; [reflexivity | apply fold_profit_greatest].
Qed.

Lemma div_nonzero a b : ~ b == 0 -> div a b = Some (a / b).
Proof.
  intros Hb. unfold div.
  replace (Qeq_bool b 0) with false; [reflexivity |].
  symmetry. apply not_true_iff_false. now rewrite Qeq_bool_iff.
Qed.

Section OptimalFacts.

Variable rpow : Q -> Q -> Q.

(** With a discrete maximum at hand the body of the [try] raises nothing. *)
Lemma optimal_try_total cost current base_demand elasticity curve best :
  discrete_max curve = Some best ->
  let '(price, demand, profit) := candidate rpow cost current base_demand elasticity in
  optimal_try rpow cost current base_demand elasticity curve
  = Some (if Py.gt elasticity 1.0 && Py.gt cost 0
          then if Py.ge profit (cm_profit best)
               then {| optimalPrice := Py.round price 2;
                       optimalDemand := Py.round demand 1;
                       optimalProfit := Py.round profit 2 |}
               else of_metric best
          else of_metric best).
Proof.
  intros Hbest. unfold candidate; cbv zeta.
  unfold optimal_try. rewrite Hbest.
  py_case (Py.gt elasticity 1.0); [| reflexivity].
  py_case (Py.gt cost 0); [| reflexivity].
  simpl andb. cbv iota.
  rewrite div_nonzero by lra. cbn [bind].
  set (price := Py.min (Py.max (cost * 1.1) (cost * elasticity / (elasticity - 1.0)))
                       (current * 2.0)).
  assert (price <= current * 2.0) as Hcap
    by (subst price; unfold Py.min; py_cases; lra).
  py_case (Py.gt price 0).
  - rewrite div_nonzero by lra. cbn [bind].
    rewrite pow_positive by (apply Qlt_shift_div_l; lra). cbn [bind].
    destruct (Py.ge _ _); reflexivity.
  - cbn [bind]. rewrite pow_positive by lra. cbn [bind].
    destruct (Py.ge _ _); reflexivity.
Qed.



End OptimalFacts.

(** ** [get_product_market_data] *)

Lemma key_eqb_eq a b : key_eqb a b = true <-> a = b.
Proof.
  destruct a as [[[y m] d] h], b as [[[y' m'] d'] h']. unfold key_eqb.
  rewrite !andb_true_iff, !Z.eqb_eq. split.
  - intros [[[-> ->] ->] ->]. reflexivity.
  - intros E. inversion E. auto.
Qed.

Lemma key_eqb_refl a : key_eqb a a = true.
Proof. now apply key_eqb_eq. Qed.

Lemma key_eqb_neq a b : key_eqb a b = false <-> a <> b.
Proof. rewrite <- not_true_iff_false, key_eqb_eq. reflexivity. Qed.

Ltac key_order :=
  repeat match goal with k : SessionKey |- _ => destruct k as [[[? ?] ?] ?] end;
  unfold earlier, key_ltb, key_code, lex_ltb in *;
  rewrite ?orb_false_r, ?andb_false_r in *;
  repeat match goal with
         | H : _ = false |- _ => apply not_true_iff_false in H
         end;
  rewrite ?orb_true_iff, ?andb_true_iff, ?Z.ltb_lt, ?Z.eqb_eq in *.

Lemma earlier_trans a b c : earlier a b -> earlier b c -> earlier a c.
Proof. intros H1 H2. key_order. lia. Qed.

Lemma earlier_irrefl a : ~ earlier a a.
Proof. intros H. key_order. lia. Qed.

Lemma earlier_total a b : key_ltb a b = false -> a <> b -> earlier b a.
Proof.
  intros H N. key_order.
  assert (~ (z = z3 /\ z2 = z6 /\ z1 = z5 /\ z0 = z4)) as N'.
  { intros (-> & -> & -> & ->). now apply N. }
  lia.
Qed.

(** *** The dict of sessions *)

Lemma get_append k k' v d :
  get_session k (append_item k' v d)
  = if key_eqb k k' then get_session k d ++ [v] else get_session k d.
Proof.
  induction d as [| [k0 l] d IH]; simpl.
  - destruct (key_eqb k k'); reflexivity.
  - destruct (key_eqb k' k0) eqn:E0; simpl.
    + apply key_eqb_eq in E0. subst k0.
      destruct (key_eqb k k'); reflexivity.
    + destruct (key_eqb k k0) eqn:E1.
      * apply key_eqb_eq in E1. subst k0.
        replace (key_eqb k k') with false; [reflexivity |].
        symmetry. apply key_eqb_neq. apply key_eqb_neq in E0. congruence.
      * exact IH.
Qed.

Lemma keys_append k v d :
  map fst (append_item k v d)
  = if existsb (key_eqb k) (map fst d) then map fst d else map fst d ++ [k].
Proof.
  induction d as [| [k0 l] d IH]; simpl.
  - reflexivity.
  - destruct (key_eqb k k0) eqn:E0; simpl; [reflexivity |].
    rewrite IH. destruct (existsb _ _); reflexivity.
Qed.

Lemma existsb_key k l : existsb (key_eqb k) l = true <-> In k l.
Proof.
  rewrite existsb_exists. split.
  - intros (x & Hx & E). apply key_eqb_eq in E. now subst.
  - intros H. exists k. split; [exact H | apply key_eqb_refl].
Qed.

(** What the loop of lines 229-244 leaves in the dict, from any start. *)
Lemma sessions_fold market_data : forall d,
  let d' :=
    fold_left
      (fun d md =>
         match md_scraped_at md with
         | Some t =>
             append_item (session_key t)
               {| i_price := md_price md; i_timestamp := t; i_source := md_source md |} d
         | None => d
         end) market_data d in
  (forall k, map i_price (get_session k d')
             = map i_price (get_session k d)
               ++ map md_price (session_rows k market_data))
  /\ (forall k, map i_source (get_session k d')
                = map i_source (get_session k d)
                  ++ map md_source (session_rows k market_data))
  /\ (forall k, map i_timestamp (get_session k d')
                = map i_timestamp (get_session k d)
                  ++ flat_map (fun md => option_list (md_scraped_at md))
                       (session_rows k market_data))
  /\ (NoDup (map fst d) -> NoDup (map fst d'))
  /\ (forall k, In k (map fst d')
                <-> In k (map fst d) \/ session_rows k market_data <> []).
Proof.
  induction market_data as [| md mds IH]; intros d; cbv zeta.
  - simpl. repeat split; intros; rewrite ?app_nil_r; try reflexivity; tauto.
  - simpl fold_left.
    set (d1 := match md_scraped_at md with
               | Some t => append_item (session_key t) _ d
               | None => d
               end).
    destruct (IH d1) as (Hp & Hs & Ht & Hn & Hk). cbv zeta in *.
    assert (forall k, get_session k d1
                      = get_session k d
                        ++ (if in_session k md
                            then match md_scraped_at md with
                                 | Some t => [{| i_price := md_price md;
                                                 i_timestamp := t;
                                                 i_source := md_source md |}]
                                 | None => []
                                 end
                            else [])) as Hget.
    { intros k. subst d1. unfold in_session.
      destruct (md_scraped_at md) as [t |]; [| now rewrite app_nil_r].
      rewrite get_append.
      destruct (key_eqb k (session_key t)) eqn:E.
      - apply key_eqb_eq in E. subst k. now rewrite key_eqb_refl.
      - replace (key_eqb (session_key t) k) with false; [now rewrite app_nil_r |].
        symmetry. apply key_eqb_neq. apply key_eqb_neq in E. congruence. }
    assert (forall k, In k (map fst d1)
                      <-> In k (map fst d) \/ in_session k md = true) as Hkeys.
    { intros k. subst d1. unfold in_session.
      destruct (md_scraped_at md) as [t |].
      - rewrite keys_append. destruct (existsb _ _) eqn:E.
        + apply existsb_key in E. rewrite key_eqb_eq. split; [tauto |].
          intros [H | <-]; assumption.
        + rewrite in_app_iff, key_eqb_eq. simpl. tauto.
      - split; [tauto | intros [H | H]; [exact H | discriminate H]]. }
    assert (NoDup (map fst d) -> NoDup (map fst d1)) as Hnd.
    { intros H. subst d1. destruct (md_scraped_at md) as [t |]; [| exact H].
      rewrite keys_append. destruct (existsb _ _) eqn:E; [exact H |].
      apply NoDup_app; [exact H | repeat constructor; simpl; tauto |].
      intros x Hx [<- | []].
      apply existsb_key in Hx. congruence. }
    unfold session_rows in *. simpl filter.
    split; [| split; [| split; [| split]]].
    + intros k. rewrite Hp, Hget, map_app, <- app_assoc. f_equal.
      destruct (in_session k md) eqn:E; [| reflexivity].
      unfold in_session in E. destruct (md_scraped_at md); [reflexivity | discriminate].
    + intros k. rewrite Hs, Hget, map_app, <- app_assoc. f_equal.
      destruct (in_session k md) eqn:E; [| reflexivity].
      unfold in_session in E. destruct (md_scraped_at md); [reflexivity | discriminate].
    + intros k. rewrite Ht, Hget, map_app, <- app_assoc. f_equal.
      destruct (in_session k md) eqn:E; [| reflexivity].
      unfold in_session in E. simpl flat_map.
      destruct (md_scraped_at md); [reflexivity | discriminate].
    + intros H. apply Hn, Hnd, H.
    + intros k. rewrite Hk, Hkeys.
      destruct (in_session k md) eqn:E; split; try tauto.
      * intros _. right. discriminate.
      * intros [[H | H] | H]; [tauto | discriminate H | tauto].
Qed.

(** *** The sorted keys *)

Lemma insert_key_perm k l : Permutation (insert_key k l) (k :: l).
Proof.
  induction l as [| k' t IH]; simpl.
  - reflexivity.
  - destruct (key_ltb k' k).
    + rewrite IH. apply perm_swap.
    + reflexivity.
Qed.

Lemma insert_key_sorted k l :
  StronglySorted earlier l -> ~ In k l -> StronglySorted earlier (insert_key k l).
Proof.
  induction l as [| k' t IH]; simpl; intros Hs Hn.
  - repeat constructor.
  - apply StronglySorted_inv in Hs as [Hs Hall].
    destruct (key_ltb k' k) eqn:E.
    + constructor; [apply IH; tauto |].
      rewrite Forall_forall in *. intros x Hx.
      apply (Permutation_in _ (insert_key_perm k t)) in Hx.
      destruct Hx as [<- | Hx]; [exact E | now apply Hall].
    + assert (earlier k k') as Hk by (apply earlier_total; [exact E | tauto]).
      constructor; [constructor; assumption |].
      constructor; [exact Hk |].
      rewrite Forall_forall in *. intros x Hx.
      apply earlier_trans with k'; [exact Hk | now apply Hall].
Qed.

Lemma sorted_fold l :
  NoDup l ->
  StronglySorted earlier (fold_right insert_key [] l)
  /\ Permutation (fold_right insert_key [] l) l.
Proof.
  induction l as [| k t IH]; simpl; intros Hn.
  - split; constructor.
  - inversion Hn as [| ? ? Hk Ht]; subst.
    destruct (IH Ht) as [Hs Hp]. split.
    + apply insert_key_sorted; [exact Hs |].
      intros Hin. apply Hk. now apply (Permutation_in _ Hp).
    + rewrite insert_key_perm. now constructor.
Qed.

(** The last of a sorted list comes after all the others. *)
Lemma sorted_last l k ks :
  StronglySorted earlier l -> rev l = k :: ks ->
  l = rev ks ++ [k] /\ forall x, In x (rev ks) -> earlier x k.
Proof.
  intros Hs Hr.
  assert (l = rev ks ++ [k]) as El.
  { rewrite <- (rev_involutive l), Hr. reflexivity. }
  split; [exact El |]. subst l. clear Hr.
  induction (rev ks) as [| a t IH]; simpl in *; intros x Hx; [destruct Hx |].
  apply StronglySorted_inv in Hs as [Hs Hall].
  destruct Hx as [<- | Hx]; [| now apply IH].
  rewrite Forall_forall in Hall. apply Hall, in_or_app. right. now left.
Qed.

(** *** One session *)

Lemma summarize_session session_data :
  session_data <> [] ->
  exists s first rest,
    session_data = first :: rest
    /\ summarize session_data = (Some s, map i_price session_data)
    /\ s_timestamp s = i_timestamp first
    /\ s_date s = date_of (i_timestamp first)
    /\ s_average s
       = Py.sum (map i_price session_data) / Py.len (map i_price session_data)
    /\ least (map i_price session_data) (s_min s)
    /\ greatest (map i_price session_data) (s_max s)
    /\ s_count s = List.length (map i_price session_data)
    /\ s_sources s = List.length (nodup string_dec (map i_source session_data)).
Proof.
  intros Hne. destruct session_data as [| first rest]; [congruence |].
  assert (map i_price (first :: rest) <> []) as Hp by discriminate.
  destruct (min_list_least _ Hp) as (lo & Hlo & Hleast).
  destruct (max_list_greatest _ Hp) as (hi & Hhi & Hgreatest).
  unfold summarize; cbv zeta. rewrite Hlo, Hhi.
  eexists _, first, rest. split; [reflexivity |]. split; [reflexivity |].
  cbn [s_timestamp s_date s_average s_min s_max s_count s_sources].
  unfold distinct_sources.
  repeat (split; [first [reflexivity | assumption] |]). reflexivity.
Qed.

(** The loop of lines 249-264 over keys whose sessions are not empty. *)
Lemma trend_rounds (d : Sessions) (keys : list SessionKey) :
  (forall k, In k keys -> get_session k d <> []) ->
  let rounds := map (fun k => summarize (get_session k d)) keys in
  Forall2 (fun k s => fst (summarize (get_session k d)) = Some s)
          keys (flat_map (fun r => option_list (fst r)) rounds)
  /\ flat_map snd rounds
     = flat_map (fun k => map i_price (get_session k d)) keys.
Proof.
  induction keys as [| k keys IH]; intros Hne; cbv zeta; simpl.
  - split; [constructor | reflexivity].
  - destruct IH as [IH1 IH2]; [intros k' Hk'; apply Hne; now right |].
    destruct (summarize_session (get_session k d)) as (s & first & rest & _ & Hs & _);
      [apply Hne; now left |].
    cbv zeta in *. rewrite Hs. simpl. split.
    + constructor; [rewrite Hs; reflexivity | exact IH1].
    + f_equal. exact IH2.
Qed.

Lemma session_rows_key k market_data md :
  In md (session_rows k market_data) ->
  exists t, md_scraped_at md = Some t /\ session_key t = k.
Proof.
  unfold session_rows. rewrite filter_In. intros [_ H].
  unfold in_session in H. destruct (md_scraped_at md) as [t |]; [| discriminate].
  exists t. split; [reflexivity | now apply key_eqb_eq].
Qed.

(** The entry of [trend_data] of the session [k] summarizes the rows of [k]. *)
Lemma summary_of_session market_data k s :
  let d := scan_sessions market_data in
  get_session k d <> [] ->
  fst (summarize (get_session k d)) = Some s ->
  session_key (s_timestamp s) = k /\ summarizes (session_rows k market_data) s.
Proof.
  intros d Hne Hs.
  destruct (sessions_fold market_data []) as (Hp & Hsrc & Ht & _ & _).
  cbv zeta in *. fold (scan_sessions market_data) in *. fold d in Hp, Hsrc, Ht.
  specialize (Hp k). specialize (Hsrc k). specialize (Ht k). simpl in Hp, Hsrc, Ht.
  destruct (summarize_session _ Hne)
    as (s' & first & rest & Eq & Hsum & Hts & Hdate & Havg & Hmin & Hmax & Hcnt & Hsc).
  rewrite Hsum in Hs. simpl in Hs. injection Hs as ->.
  rewrite Hp in Havg, Hmin, Hmax, Hcnt. rewrite Hsrc in Hsc.
  rewrite length_map in Hcnt.
  destruct (session_rows k market_data) as [| row rows] eqn:Er.
  { rewrite Eq in Hp. discriminate Hp. }
  destruct (session_rows_key k market_data row) as (t & Hrow & Hk);
    [rewrite Er; now left |].
  rewrite Eq in Ht. simpl in Ht. rewrite Hrow in Ht. simpl in Ht.
  injection Ht as Hfirst _.
  assert (s_timestamp s = t) as Et by congruence.
  split; [congruence |].
  unfold summarizes; cbv zeta.
  split; [exists row, rows; split; [reflexivity | congruence] |].
  split; [congruence |].
  repeat (split; [assumption |]). assumption.
Qed.

Lemma trend_keys market_data keys trend :
  let d := scan_sessions market_data in
  (forall k, In k keys -> get_session k d <> []) ->
  Forall2 (fun k s => fst (summarize (get_session k d)) = Some s) keys trend ->
  map (fun s => session_key (s_timestamp s)) trend = keys
  /\ Forall (fun s => summarizes
                        (session_rows (session_key (s_timestamp s)) market_data) s)
            trend.
Proof.
  intros d Hne H. induction H as [| k s keys trend Hks H IH].
  - split; constructor.
  - destruct IH as [IH1 IH2]; [intros k' Hk'; apply Hne; now right |].
    destruct (summary_of_session market_data k s) as [Hk Hsum];
      [apply Hne; now left | exact Hks |].
    simpl. split.
    + now rewrite Hk, IH1.
    + constructor; [now rewrite Hk | exact IH2].
Qed.

(** What the dict holds once the loop is over. *)
Lemma scan_sessions_spec market_data :
  let d := scan_sessions market_data in
  NoDup (map fst d)
  /\ (forall k, In k (map fst d) <-> session_rows k market_data <> [])
  /\ (forall k, map i_price (get_session k d)
                = map md_price (session_rows k market_data))
  /\ (forall k, In k (map fst d) -> get_session k d <> []).
Proof.
  destruct (sessions_fold market_data []) as (Hp & _ & _ & Hn & Hk).
  cbv zeta in *. fold (scan_sessions market_data) in *.
  assert (forall k, In k (map fst (scan_sessions market_data))
                    <-> session_rows k market_data <> []) as Hkeys.
  { intros k. rewrite Hk. simpl. tauto. }
  split; [apply Hn; constructor |]. split; [exact Hkeys |].
  split; [intros k; apply Hp |].
  intros k Hin E. apply Hkeys in Hin. apply Hin.
  specialize (Hp k). rewrite E in Hp. simpl in Hp.
  destruct (session_rows k market_data); [reflexivity | discriminate Hp].
Qed.

(** C9: no row gives an empty trend, an empty distribution and a total of zero.
    Otherwise the answer exists as soon as one row has a timestamp; its trend has
    one summary per (date, hour) session that has a row, in chronological order,
    each with the average, minimum, maximum, number and number of distinct sources
    of the prices of its rows; the current distribution is the list of all prices
    when there is exactly one session, and the prices of the latest session when
    there are several. *)
Theorem market_data_sessions :
  get_product_market_data []
  = Some {| trend := []; currentDistribution := []; allPrices := [];
            totalDataPoints := 0; scanSessions := None |}
  /\ (forall market_data,
        (exists md, In md market_data /\ md_scraped_at md <> None) ->
        exists r, get_product_market_data market_data = Some r)
  /\ (forall market_data r,
        market_data <> [] ->
        get_product_market_data market_data = Some r ->
        let keys := map (fun s => session_key (s_timestamp s)) (trend r) in
        StronglySorted earlier keys
        /\ (forall k, In k keys <-> session_rows k market_data <> [])
        /\ Forall (fun s => summarizes
                              (session_rows (session_key (s_timestamp s)) market_data)
                              s) (trend r)
        /\ allPrices r
           = flat_map (fun k => map md_price (session_rows k market_data)) keys
        /\ totalDataPoints r = List.length market_data
        /\ scanSessions r = Some (List.length keys)
        /\ (List.length keys = 1%nat -> currentDistribution r = allPrices r)
        /\ ((1 < List.length keys)%nat ->
            exists before latest,
              keys = before ++ [latest]
              /\ (forall k, In k before -> earlier k latest)
              /\ currentDistribution r
                 = map md_price (session_rows latest market_data))).
Proof.
  split; [reflexivity |].
  assert (forall market_data,
            market_data <> [] ->
            let d := scan_sessions market_data in
            let ks := sorted_keys d in
            StronglySorted earlier ks
            /\ List.length ks = List.length d
            /\ (forall k, In k ks <-> session_rows k market_data <> [])
            /\ (forall k, In k ks -> get_session k d <> [])
            /\ exists trend_data all_prices,
                 map (fun s => session_key (s_timestamp s)) trend_data = ks
                 /\ Forall (fun s => summarizes
                                       (session_rows (session_key (s_timestamp s))
                                          market_data) s) trend_data
                 /\ all_prices
                    = flat_map (fun k => map md_price (session_rows k market_data)) ks
                 /\ get_product_market_data market_data
                    = match (if (List.length d =? 1)%nat then Some all_prices
                             else match rev ks with
                                  | [] => None
                                  | k :: _ => Some (map i_price (get_session k d))
                                  end) with
                      | Some recent =>
                          Some {| trend := trend_data;
                                  currentDistribution :=
                                    if nonempty recent then recent else all_prices;
                                  allPrices := all_prices;
                                  totalDataPoints := List.length market_data;
                                  scanSessions := Some (List.length d) |}
                      | None => None
                      end) as Hshape.
  { intros market_data Hne d ks.
    destruct (scan_sessions_spec market_data) as (Hnd & Hkeys & Hprices & Hfull).
    cbv zeta in *. fold d in Hnd, Hkeys, Hprices, Hfull.
    destruct (sorted_fold (map fst d) Hnd) as [Hsorted Hperm].
    fold (sorted_keys d) in Hsorted, Hperm. fold ks in Hsorted, Hperm.
    assert (forall k, In k ks <-> In k (map fst d)) as Hin.
    { intros k. split; apply Permutation_in; [exact Hperm | now symmetry]. }
    assert (forall k, In k ks -> get_session k d <> []) as Hks.
    { intros k Hk. apply Hfull, Hin, Hk. }
    destruct (trend_rounds d ks Hks) as [HF2 Hall]. cbv zeta in HF2, Hall.
    destruct (trend_keys market_data ks _ Hks HF2) as [Hmap Hsum].
    split; [exact Hsorted |].
    split; [rewrite (Permutation_length Hperm); apply length_map |].
    split; [intros k; rewrite Hin; apply Hkeys |].
    split; [exact Hks |].
    exists (flat_map (fun r => option_list (fst r))
              (map (fun k => summarize (get_session k d)) ks)),
           (flat_map snd (map (fun k => summarize (get_session k d)) ks)).
    split; [exact Hmap |]. split; [exact Hsum |]. split.
    - rewrite Hall. apply flat_map_ext. intros k. apply Hprices.
    - unfold get_product_market_data.
      apply nonempty_true in Hne. rewrite Hne. simpl negb. cbv iota zeta.
      fold d. fold ks. unfold bind.
      destruct (List.length d =? 1)%nat; [reflexivity |].
      destruct (rev ks); reflexivity. }
  split.
  - intros market_data (md & Hmd & Hts).
    assert (market_data <> []) as Hne by (intros ->; destruct Hmd).
    destruct (Hshape market_data Hne)
      as (_ & _ & Hkeys & _ & trend_data & all_prices & _ & _ & _ & ->).
    destruct (md_scraped_at md) as [t |] eqn:Et; [| congruence].
    assert (In (session_key t) (sorted_keys (scan_sessions market_data))) as Hin.
    { apply Hkeys. intros E.
      assert (In md (session_rows (session_key t) market_data)) as Hrow.
      { unfold session_rows. apply filter_In. split; [exact Hmd |].
        unfold in_session. rewrite Et. apply key_eqb_refl. }
      rewrite E in Hrow. destruct Hrow. }
    destruct (List.length _ =? 1)%nat; [eexists; reflexivity |].
    destruct (rev (sorted_keys (scan_sessions market_data))) eqn:Er;
      [| eexists; reflexivity].
    apply in_rev in Hin. rewrite Er in Hin. destruct Hin.
  - intros market_data r Hne Hget keys.
    destruct (Hshape market_data Hne)
      as (Hsorted & Hlen & Hkeys & Hfull & trend_data & all_prices
          & Hmap & Hsum & Hall & Hanswer).
    cbv zeta in *.
    set (d := scan_sessions market_data) in *.
    set (ks := sorted_keys d) in *.
    rewrite Hanswer in Hget. clear Hanswer.
    assert (forall k, In k ks ->
                      map i_price (get_session k d)
                      = map md_price (session_rows k market_data)) as Hprices.
    { intros k _. apply (scan_sessions_spec market_data). }
    destruct (List.length d =? 1)%nat eqn:E1.
    + injection Hget as <-. subst keys. simpl. rewrite Hmap.
      apply Nat.eqb_eq in E1.
      repeat (split; [first [assumption | reflexivity] |]).
      split; [now rewrite Hlen |].
      split; [intros _; destruct (nonempty all_prices); reflexivity |].
      intros Hgt. lia.
    + apply Nat.eqb_neq in E1.
      destruct (rev ks) as [| latest before] eqn:Er; [discriminate Hget |].
      injection Hget as <-. subst keys. simpl. rewrite Hmap.
      destruct (sorted_last ks latest before Hsorted Er) as [Eks Hlast].
      assert (In latest ks) as Hin by (rewrite Eks; apply in_or_app; right; now left).
      repeat (split; [first [assumption | reflexivity] |]).
      split; [now rewrite Hlen |].
      split; [intros H1; lia |].
      intros _. exists (rev before), latest.
      split; [exact Eks |]. split; [exact Hlast |].
      rewrite <- (Hprices latest Hin).
      destruct (get_session latest d) eqn:Eg; [| reflexivity].
      exfalso. now apply (Hfull latest Hin).
Qed.

(** ** Concrete runs *)

(** The first example of the specification: cost 50, current price 100 and the
    samples 90, 95, 100, 105. *)
Example match_market_run :
  let r := optimize_price (mkProduct "p1" "Robe" "R-1" "Other" 50 100 None 1)
                          [90; 95; 100; 105] in
  suggestedPrice r == 97.5
  /\ strategy r = "Match Market"%string
  /\ confidenceScore r = 85%Z
  /\ riskLevel r = "low"%string
  /\ competitorMinPrice r == 90
  /\ competitorMaxPrice r == 105.
Proof. vm_compute. repeat split; reflexivity. Qed.

(** The third one: cost 100, current price 150 and the single sample 80. *)
Example below_margin_run :
  let r := optimize_price (mkProduct "p1" "Robe" "R-1" "Other" 100 150 None 1) [80] in
  suggestedPrice r == 80
  /\ riskLevel r = "high"%string
  /\ implementationTiming r = "Phased - Monitor closely"%string.
Proof. vm_compute. repeat split; reflexivity. Qed.

(** A market average of 115 at cost 100 is within 10% of the cost below the floor and
    is raised to 120. *)
Example floor_clamp_run :
  let r := optimize_price (mkProduct "p1" "Robe" "R-1" "Other" 100 150 None 1) [115] in
  suggestedPrice r == 120
  /\ riskLevel r = "medium"%string
  /\ predictedMargin r == 16.7
  /\ revenueImpact r = (-120)%Z.
Proof. vm_compute. repeat split; reflexivity. Qed.

(** A sample outside the band is dropped: with a current price of 10 the sample 60
    is above 50; when every sample is outside, all are kept. *)
Example secondary_filter_run :
  filter_competitor_prices 10 [9; 60; 11] = [9; 11]
  /\ filter_competitor_prices 10 [60; 70] = [60; 70].
Proof. vm_compute. split; reflexivity. Qed.

(** Cost 50, current price 60 and a velocity of 60 give an elasticity of 2; the
    closed form is 100, within [[55, 120]], where the demand is 21.6 and the profit
    1080, above the best point of the curve. *)
Example optimal_price_run :
  let product := mkProduct "p1" "Robe" "R-1" "Other" 50 60 None 60 in
  exists curve optimal,
    get_elasticity_curve pow_integer product 70 = Some (curve, optimal)
    /\ optimalPrice optimal == 100
    /\ optimalDemand optimal == 21.6
    /\ optimalProfit optimal == 1080.
Proof.
  cbv zeta. eexists _, _. split; [vm_compute; reflexivity |].
  vm_compute. repeat split; reflexivity.
Qed.

(** At cost 0 the closed form does not apply and the optimum is the first point of
    greatest profit of the curve. *)
Example discrete_maximum_run :
  let product := mkProduct "p1" "Robe" "R-1" "Other" 0 1 None 10 in
  exists curve optimal best,
    get_elasticity_curve pow_integer product 1 = Some (curve, optimal)
    /\ discrete_max curve = Some best
    /\ optimal = of_metric best
    /\ optimalPrice optimal == 0.82
    /\ optimalProfit optimal == 10.09.
Proof.
  cbv zeta. eexists _, _, _. split; [vm_compute; reflexivity |].
  split; [vm_compute; reflexivity |].
  vm_compute. repeat split; reflexivity.
Qed.

(** A major retailer is recognised whatever the case of its name, and is allowed
    down to 40% of the cost. *)
Example validator_run :
  _validate_scraped_price 45 100 0 (Some "Amazon"%string) = true
  /\ _validate_scraped_price 45 100 0 (Some "ebay"%string) = false
  /\ _validate_scraped_price 45 100 0 None = false
  /\ _validate_scraped_price 0.001 0 0 None = false.
Proof. vm_compute. repeat split; reflexivity. Qed.

(** Three rows over two hours: two sessions, the earlier first, and the prices of
    the later one as the current distribution. *)
Example market_data_run :
  exists r,
    get_product_market_data
      [mkMarketData "amazon" 10 (Some (mkTimestamp 2024 1 2 9 5 0));
       mkMarketData "ebay" 12 (Some (mkTimestamp 2024 1 2 8 30 0));
       mkMarketData "amazon" 14 (Some (mkTimestamp 2024 1 2 9 40 0))] = Some r
    /\ map s_count (trend r) = [1; 2]%nat
    /\ map s_sources (trend r) = [1; 1]%nat
    /\ map s_min (trend r) = [12; 10]
    /\ map s_max (trend r) = [12; 14]
    /\ currentDistribution r = [10; 14]
    /\ allPrices r = [12; 10; 14]
    /\ totalDataPoints r = 3%nat.
Proof.
  eexists. split; [vm_compute; reflexivity |].
  vm_compute. repeat split; reflexivity.
Qed.

(** * Further properties of the code *)

(** ** Sums and averages *)

Lemma len_cons {A} (x : A) (l : list A) : Py.len (x :: l) == Py.len l + 1.
Proof.
  unfold Py.len. cbn [List.length]. rewrite Nat2Z.inj_succ. unfold Z.succ.
  rewrite inject_Z_plus. reflexivity.
Qed.

Lemma len_nonneg {A} (l : list A) : 0 <= Py.len l.
Proof.
  unfold Py.len. change 0 with (inject_Z 0). apply inject_Z_le_iff. lia.
Qed.

Lemma len_positive {A} (l : list A) : l <> [] -> 0 < Py.len l.
Proof.
  destruct l as [| x t]; [congruence | intros _].
  rewrite len_cons. pose proof (len_nonneg t). lra.
Qed.

Lemma fold_sum_bounds lo hi l : forall acc,
  (forall p, In p l -> lo <= p <= hi) ->
  acc + Py.len l * lo <= fold_left Qplus l acc
  /\ fold_left Qplus l acc <= acc + Py.len l * hi.
Proof.
  induction l as [| x t IH]; intros acc H.
  - cbn [fold_left]. change (Py.len (@nil Q)) with 0. split; lra.
  - cbn [fold_left].
    destruct (IH (acc + x)) as [H1 H2]; [intros p Hp; apply H; now right |].
    destruct (H x (or_introl eq_refl)) as [Hlo Hhi].
    pose proof (len_cons x t) as Hl.
    assert (Py.len (x :: t) * lo == Py.len t * lo + lo) as -> by (rewrite Hl; ring).
    assert (Py.len (x :: t) * hi == Py.len t * hi + hi) as -> by (rewrite Hl; ring).
    split; lra.
Qed.

(** The mean of a non-empty list lies between its least and greatest element. *)
Lemma average_between l lo hi :
  l <> [] -> least l lo -> greatest l hi ->
  lo <= Py.sum l / Py.len l <= hi.
Proof.
  intros Hne [_ Hlo] [_ Hhi].
  pose proof (len_positive l Hne) as Hlen.
  destruct (fold_sum_bounds lo hi l 0) as [H1 H2];
    [intros p Hp; split; [now apply Hlo | now apply Hhi] |].
  fold (Py.sum l) in H1, H2. split.
  - apply Qle_shift_div_l; [exact Hlen | lra].
  - apply Qle_shift_div_r; [exact Hlen | lra].
Qed.

(** ** [optimize_price]: what the recommendation guarantees *)

Lemma filter_twice {A} (f : A -> bool) (k : list A) :
  filter f (filter f k) = filter f k.
Proof.
  induction k as [| a k IH]; simpl; [reflexivity |].
  destruct (f a) eqn:Ea; simpl; [rewrite Ea, IH |]; auto.
Qed.

Lemma filter_competitor_prices_idem current_price l :
  filter_competitor_prices current_price (filter_competitor_prices current_price l)
  = filter_competitor_prices current_price l.
Proof.
  set (band := fun p => Py.le (current_price * 0.1) p && Py.le p (current_price * 5.0)).
  assert (forall k, filter_competitor_prices current_price k
                    = if nonempty k && Py.gt current_price 0
                      then if nonempty (filter band k) then filter band k else k
                      else k) as Hdef by reflexivity.
  rewrite (Hdef l).
  destruct (nonempty l && Py.gt current_price 0) eqn:E; [| now rewrite Hdef, E].
  destruct (nonempty (filter band l)) eqn:F; [| now rewrite Hdef, E, F].
  apply andb_true_iff in E as [_ G].
  rewrite Hdef, F, G, filter_twice, F. reflexivity.
Qed.

(** X1: filtering the samples by the band of the current price beforehand does not
    change the recommendation. *)
Theorem optimize_price_prefiltered :
  forall (product : Product) (competitor_prices : list Q),
    optimize_price product
      (filter_competitor_prices (current_price product) competitor_prices)
    = optimize_price product competitor_prices.
Proof.
  intros product competitor_prices.
  unfold optimize_price, post_floor, pre_floor, unrounded; cbv zeta.
  rewrite filter_competitor_prices_idem. reflexivity.
Qed.


(** The decision before the floor: with a sample, or without. *)
Lemma pre_floor_cases product competitor_prices :
  let current := current_price product in
  let used := filter_competitor_prices current competitor_prices in
  let stats := market_statistics current used in
  (competitor_prices <> [] /\ used <> []
   /\ pre_floor product competitor_prices
      = {| d_suggested_price := avg_competitor_price stats;
           d_strategy := "Match Market";
           d_rationale :=
             "Price matched to market average from "
             ++ str_of_nat (List.length used)
             ++ " scraped sources. Aligning with current market conditions.";
           d_confidence_score := 85;
           d_risk_level := "low";
           d_market_position := "Competitive" |}%string)
  \/ (competitor_prices = [] /\ used = []
      /\ pre_floor product competitor_prices
         = {| d_suggested_price := current;
              d_strategy := "No Data";
              d_rationale := "No recent market data available. Using current price.";
              d_confidence_score := 50;
              d_risk_level := "medium";
              d_market_position := "Unknown" |}%string).
Proof.
  intros current used stats.
  destruct competitor_prices as [| x t].
  - right. repeat split; reflexivity.
  - left. split; [discriminate |].
    assert (used <> []) as Hused.
    { subst used. unfold filter_competitor_prices; cbv zeta.
      destruct (nonempty (x :: t) && Py.gt current 0); [| discriminate].
      destruct (nonempty (filter _ _)) eqn:E; [| discriminate].
      now apply nonempty_true. }
    split; [exact Hused |].
    unfold pre_floor, decide_price; cbv zeta. fold current. fold used. fold stats.
    destruct used as [| y u]; [congruence | reflexivity].
Qed.


(** Unless the risk comes out "high", the price after the floor is at least
    [cost x 1.2]. *)
Lemma floor_reached cost d :
  d_risk_level d <> "high"%string ->
  d_risk_level (margin_floor cost d) <> "high"%string ->
  cost * 1.2 <= d_suggested_price (margin_floor cost d).
Proof.
  destruct (margin_floor_spec cost d) as [[H E] | [(_ & _ & E) | (_ & _ & E)]];
    rewrite E; simpl; intros Hd Hhigh; try lra; try assumption.
  now contradiction Hhigh.
Qed.



Lemma pre_floor_risk product competitor_prices :
  d_risk_level (pre_floor product competitor_prices) <> "high"%string.
Proof.
  destruct (pre_floor_cases product competitor_prices)
    as [(_ & _ & ->) | (_ & _ & ->)]; simpl; discriminate.
Qed.

(** X3: for a positive cost, a recommendation whose risk is not "high" has a
    predicted margin between 16.7% and 100%: the floor of [cost x 1.2] is a markup
    of 20%, that is a margin of one sixth of the price. *)
Theorem margin_guarantee :
  forall (product : Product) (competitor_prices : list Q),
    let r := optimize_price product competitor_prices in
    0 < cost_price product ->
    riskLevel r <> "high"%string ->
    16.7 <= predictedMargin r /\ predictedMargin r <= 100.
Proof.
  intros product competitor_prices r Hcost Hrisk.
  set (cost := cost_price product) in *.
  set (pre := pre_floor product competitor_prices).
  assert (riskLevel r = d_risk_level (margin_floor cost pre)) as Hr by reflexivity.
  rewrite Hr in Hrisk.
  pose proof (floor_reached cost pre (pre_floor_risk _ _) Hrisk) as Hfloor.
  set (s := d_suggested_price (margin_floor cost pre)) in *.
  assert (predictedMargin r
          = Py.round (if Py.gt s 0 then ((s - cost) / s) * 100 else 0) 1) as ->
    by reflexivity.
  assert (0 < s) as Hs by lra.
  apply gt_true in Hs as Hg. rewrite Hg.
  assert (1 # 6 <= (s - cost) / s) as Hlo by (apply Qle_shift_div_l; lra).
  assert ((s - cost) / s <= 1) as Hhi by (apply Qle_shift_div_r; lra).
  split.
  - apply Qle_trans with (Py.round (50 # 3) 1);
      [vm_compute; discriminate | apply round_mono; lra].
  - apply Qle_trans with (Py.round 100 1);
      [apply round_mono; lra | vm_compute; discriminate].
Qed.

Lemma margin_guarantee_witness :
  let product := mkProduct "p1" "Robe" "R-1" "Other" 100 150 None 1 in
  let r := optimize_price product [115] in
  0 < cost_price product
  /\ riskLevel r <> "high"%string
  /\ 16.7 <= predictedMargin r.
Proof.
  cbv zeta.
  assert (riskLevel (optimize_price (mkProduct "p1" "Robe" "R-1" "Other" 100 150 None 1)
                                    [115]) <> "high"%string) as H
    by (vm_compute; discriminate).
  split; [reflexivity |]. split; [exact H |].
  exact (proj1 (margin_guarantee
                  (mkProduct "p1" "Robe" "R-1" "Other" 100 150 None 1) [115]
                  eq_refl H)).
Defined.

Lemma abs_le a b : Py.abs a <= b <-> - b <= a /\ a <= b.
Proof. unfold Py.abs. py_cases; split; intros; try split; lra. Qed.

(** X4: a recommendation of risk "high" is always "Phased - Monitor closely"; any
    other timing means that the risk is not "high" and that the price moves by at
    most 10% of the current price; "Immediate - High opportunity" is only given to
    a price rise on a product whose current margin is below 30%. *)
Theorem implementation_timing_meaning :
  forall (product : Product) (competitor_prices : list Q),
    let r := optimize_price product competitor_prices in
    let current := current_price product in
    let change := u_suggested_price (unrounded product competitor_prices) - current in
    (riskLevel r = "high"%string ->
       implementationTiming r = "Phased - Monitor closely"%string)
    /\ (implementationTiming r = "Phased - Monitor closely"%string
        \/ implementationTiming r = "Immediate - High opportunity"%string
        \/ implementationTiming r = "Immediate"%string)
    /\ (implementationTiming r <> "Phased - Monitor closely"%string ->
          riskLevel r <> "high"%string
          /\ - (current * 0.1) <= change /\ change <= current * 0.1
          /\ 0 <= current)
    /\ (implementationTiming r = "Immediate - High opportunity"%string ->
          0 < change
          /\ current_margin_of (cost_price product) current < 30).
Proof.
  intros product competitor_prices r current change.
  assert (implementationTiming r
          = timing (riskLevel r) change current
              (current_margin_of (cost_price product) current)) as ->
    by reflexivity.
  unfold timing.
  assert (forall P : Prop,
            "Phased - Monitor closely"%string <> "Phased - Monitor closely"%string -> P)
    as Hphased by (intros P N; now contradiction N).
  destruct (String.eqb (riskLevel r) "high") eqn:Eh.
  - simpl orb. cbv iota.
    split; [reflexivity |]. split; [now left |].
    split; [apply Hphased | discriminate].
  - apply String.eqb_neq in Eh. simpl orb.
    py_case (Py.gt (Py.abs change) (current * 0.1)).
    + split; [reflexivity |]. split; [now left |].
      split; [apply Hphased | discriminate].
    + apply abs_le in E. destruct E as [E1 E2].
      assert (0 <= current) as Hcur by lra.
      py_case (Py.gt change 0);
        [py_case (Py.lt (current_margin_of (cost_price product) current) 30) |];
        simpl andb; cbv iota.
      * split; [intros Hh; contradiction |]. split; [right; now left |].
        split; [intros _; auto | intros _; auto].
      * split; [intros Hh; contradiction |]. split; [right; now right |].
        split; [intros _; auto | discriminate].
      * split; [intros Hh; contradiction |]. split; [right; now right |].
        split; [intros _; auto | discriminate].
Qed.

(** X5: for a non-negative sales velocity the revenue impact has the sign of the
    price change: it is not negative when the suggested price (before rounding) is
    at least the current price, and not positive when it is at most the current
    price. *)
Theorem revenue_impact_sign :
  forall (product : Product) (competitor_prices : list Q),
    let r := optimize_price product competitor_prices in
    let suggested := u_suggested_price (unrounded product competitor_prices) in
    0 <= sales_velocity product ->
    (current_price product <= suggested -> (0 <= revenueImpact r)%Z)
    /\ (suggested <= current_price product -> (revenueImpact r <= 0)%Z).
Proof.
  intros product competitor_prices r suggested Hv.
  assert (revenueImpact r
          = Py.round_int (sales_velocity product
                          * (suggested - current_price product) * 4)) as ->
    by reflexivity.
  set (impact := sales_velocity product * (suggested - current_price product) * 4).
  split; intros H.
  - assert (0 <= impact) as Hi by (subst impact; nra).
    exact (round_int_mono 0 impact Hi).
  - assert (impact <= 0) as Hi by (subst impact; nra).
    exact (round_int_mono impact 0 Hi).
Qed.

Lemma revenue_impact_sign_witness :
  let product := mkProduct "p1" "Robe" "R-1" "Other" 100 150 None 1 in
  let r := optimize_price product [115] in
  0 <= sales_velocity product /\ (revenueImpact r <= 0)%Z.
Proof.
  cbv zeta. split; [discriminate |].
  apply (revenue_impact_sign
           (mkProduct "p1" "Robe" "R-1" "Other" 100 150 None 1) [115]).
  - discriminate.
  - vm_compute. discriminate.
Defined.

Lemma filter_length {A} (f : A -> bool) (l : list A) :
  (List.length (filter f l) <= List.length l)%nat.
Proof.
  induction l as [| a l IH]; simpl; [lia |].
  destruct (f a); simpl; lia.
Qed.

Lemma used_length current_price l :
  (List.length (filter_competitor_prices current_price l) <= List.length l)%nat.
Proof.
  unfold filter_competitor_prices; cbv zeta.
  destruct (nonempty l && Py.gt current_price 0); [| lia].
  destruct (nonempty (filter _ l)); [apply filter_length | lia].
Qed.

(** X6: with at least one sample (even if none lies in the band) the recommendation
    is a market match with confidence 85 and position "Competitive"; its rationale
    cites the number of samples that were averaged, which is at least 1 and at
    most the number given, followed by nothing at risk "low", by the floor note at
    risk "medium" and by the warning at risk "high". *)
Theorem sampled_recommendation :
  forall (product : Product) (competitor_prices : list Q),
    competitor_prices <> [] ->
    let r := optimize_price product competitor_prices in
    let used := filter_competitor_prices (current_price product) competitor_prices in
    let cited :=
      ("Price matched to market average from "
       ++ str_of_nat (List.length used)
       ++ " scraped sources. Aligning with current market conditions.")%string in
    strategy r = "Match Market"%string
    /\ confidenceScore r = 85%Z
    /\ marketPosition r = "Competitive"%string
    /\ (1 <= List.length used <= List.length competitor_prices)%nat
    /\ ((riskLevel r = "low"%string /\ rationale r = cited)
        \/ (riskLevel r = "medium"%string
            /\ rationale r = (cited ++ floor_note)%string)
        \/ (riskLevel r = "high"%string
            /\ rationale r = (cited ++ floor_warning)%string)).
Proof.
  intros product competitor_prices Hne r used cited.
  set (cost := cost_price product).
  set (pre := pre_floor product competitor_prices).
  assert (strategy r = d_strategy (margin_floor cost pre)) as -> by reflexivity.
  assert (confidenceScore r = d_confidence_score (margin_floor cost pre)) as ->
    by reflexivity.
  assert (marketPosition r = d_market_position (margin_floor cost pre)) as ->
    by reflexivity.
  assert (riskLevel r = d_risk_level (margin_floor cost pre)) as -> by reflexivity.
  assert (rationale r = d_rationale (margin_floor cost pre)) as -> by reflexivity.
  destruct (pre_floor_cases product competitor_prices)
    as [(_ & Hused & Hpre) | (Hnil & _)]; [| congruence].
  fold pre in Hpre. cbv zeta in Hpre, Hused. fold used in Hpre, Hused.
  fold cited in Hpre.
  assert (1 <= List.length used <= List.length competitor_prices)%nat as Hlen.
  { split; [destruct used; [congruence | simpl; lia] | apply used_length]. }
  destruct (margin_floor_spec cost pre) as [[_ E] | [(_ & _ & E) | (_ & _ & E)]];
    rewrite E, Hpre; simpl; repeat (split; [first [reflexivity | exact Hlen] |]).
  - left. split; reflexivity.
  - right; left. split; reflexivity.
  - right; right. split; reflexivity.
Qed.

Lemma sampled_recommendation_witness :
  let r := optimize_price (mkProduct "p1" "Robe" "R-1" "Other" 100 10 None 1) [60; 70] in
  [60; 70] <> []
  /\ strategy r = "Match Market"%string
  /\ confidenceScore r = 85%Z.
Proof.
  cbv zeta.
  assert ([60; 70] <> (@nil Q)) as H by discriminate.
  split; [exact H |].
  destruct (sampled_recommendation
              (mkProduct "p1" "Robe" "R-1" "Other" 100 10 None 1) [60; 70] H)
    as (Hs & Hc & _).
  split; [exact Hs | exact Hc].
Defined.

(** ** [calculate_elasticity_curve]: order and bounds *)

Lemma of_nat_le i j : (i <= j)%nat -> of_nat i <= of_nat j.
Proof. intros H. unfold of_nat. apply inject_Z_le_iff. lia. Qed.

Lemma price_at_mono lo hi i j :
  (i <= j)%nat ->
  (lo <= hi -> price_at lo hi i <= price_at lo hi j)
  /\ (hi <= lo -> price_at lo hi j <= price_at lo hi i).
Proof.
  intros Hij. apply of_nat_le in Hij. unfold price_at.
  change (of_nat (num_points - 1)) with 19.
  assert (of_nat i / 19 <= of_nat j / 19) as Ht.
  { apply Qmult_le_compat_r; [exact Hij | discriminate]. }
  split; intros H; nra.
Qed.

(** The points of the curve by their index. *)
Lemma curve_nth (rpow : Q -> Q -> Q) product current_price suggested_price base_demand :
  0 < current_price ->
  let elasticity :=
    _estimate_elasticity product
      (current_margin_of (cost_price product) current_price) in
  let min_price := Py.max (cost_price product * 0.8) (current_price * 0.5) in
  let max_price := Py.min (current_price * 2.0) (current_price * 1.5) in
  let price := price_at min_price max_price in
  let demand i :=
    Py.max 0 (Py.min (base_demand * rpow (current_price / price i) elasticity)
                     (base_demand * 3)) in
  exists curve,
    calculate_elasticity_curve rpow product current_price suggested_price base_demand
    = Some curve
    /\ forall i pt, nth_error curve i = Some pt ->
                    (i < 20)%nat
                    /\ pt = {| pt_price := Py.round (price i) 2;
                               pt_demand := Py.round (demand i) 1 |}.
Proof.
  intros Hpos elasticity min_price max_price price demand.
  destruct (curve_explicit rpow product current_price suggested_price base_demand Hpos)
    as [_ Hcurve].
  fold elasticity min_price max_price price demand in Hcurve.
  eexists. split; [exact Hcurve |].
  intros i pt Hnth. rewrite nth_error_map, nth_error_seq in Hnth.
  destruct (i <? num_points)%nat eqn:E; [| discriminate Hnth].
  apply Nat.ltb_lt in E. simpl in Hnth. injection Hnth as <-.
  split; [exact E | reflexivity].
Qed.

(** X7: for a positive current price the returned prices never decrease along the
    curve when [cost x 0.8 <= current x 1.5]; when the cost is so high that
    [cost x 0.8 > current x 1.5] the range is inverted and they never increase. *)
Theorem curve_prices_ordered :
  forall (rpow : Q -> Q -> Q) (product : Product)
         (current_price suggested_price base_demand : Q),
    0 < current_price ->
    exists curve,
      calculate_elasticity_curve rpow product current_price suggested_price
        base_demand = Some curve
      /\ forall i j p q,
           (i <= j)%nat ->
           nth_error curve i = Some p -> nth_error curve j = Some q ->
           (cost_price product * 0.8 <= current_price * 1.5 ->
              pt_price p <= pt_price q)
           /\ (current_price * 1.5 <= cost_price product * 0.8 ->
                 pt_price q <= pt_price p).
Proof.
  intros rpow product current_price suggested_price base_demand Hpos.
  destruct (curve_nth rpow product current_price suggested_price base_demand Hpos)
    as (curve & Hcurve & Hnth). cbv zeta in Hnth.
  exists curve. split; [exact Hcurve |].
  intros i j p q Hij Hp Hq.
  destruct (Hnth i p Hp) as [_ ->]. destruct (Hnth j q Hq) as [_ ->].
  cbn [pt_price].
  rewrite (max_price_value current_price Hpos).
  set (lo := Py.max (cost_price product * 0.8) (current_price * 0.5)).
  destruct (price_at_mono lo (current_price * 1.5) i j Hij) as [Hup Hdown].
  split; intros H; apply round_mono.
  - apply Hup. subst lo. unfold Py.max. py_cases; lra.
  - apply Hdown. subst lo. unfold Py.max. py_cases; lra.
Qed.

Lemma curve_prices_ordered_witness :
  0 < 1
  /\ exists curve,
       calculate_elasticity_curve pow_integer
         (mkProduct "p1" "Robe" "R-1" "Other" 0 1 None 10) 1 1 100 = Some curve.
Proof.
  split; [reflexivity |].
  destruct (curve_prices_ordered pow_integer
              (mkProduct "p1" "Robe" "R-1" "Other" 0 1 None 10) 1 1 100 eq_refl)
    as (curve & Hc & _).
  exists curve. exact Hc.
Defined.

(** X8: for a positive current price every returned demand lies between 0 and
    [base_demand x 3] rounded to 1 decimal when the base demand is not negative,
    and is 0 when the base demand is negative. *)
Theorem curve_demands_bounded :
  forall (rpow : Q -> Q -> Q) (product : Product)
         (current_price suggested_price base_demand : Q),
    0 < current_price ->
    exists curve,
      calculate_elasticity_curve rpow product current_price suggested_price
        base_demand = Some curve
      /\ forall pt, In pt curve ->
           (0 <= base_demand ->
              0 <= pt_demand pt /\ pt_demand pt <= Py.round (base_demand * 3) 1)
           /\ (base_demand < 0 -> pt_demand pt == 0).
Proof.
  intros rpow product current_price suggested_price base_demand Hpos.
  destruct (curve_nth rpow product current_price suggested_price base_demand Hpos)
    as (curve & Hcurve & Hnth). cbv zeta in Hnth.
  exists curve. split; [exact Hcurve |].
  intros pt Hin. apply In_nth_error in Hin as [i Hi].
  destruct (Hnth i pt Hi) as [_ ->]. cbn [pt_demand].
  match goal with
  | |- context [Py.round (Py.max 0 (Py.min ?d ?h)) 1] => set (raw := d)
  end.
  split.
  - intros Hb. split.
    + apply Qle_trans with (Py.round 0 1); [vm_compute; discriminate |].
      apply round_mono. unfold Py.max, Py.min. py_cases; lra.
    + apply round_mono. unfold Py.max, Py.min. py_cases; lra.
  - intros Hb.
    assert (Py.max 0 (Py.min raw (base_demand * 3)) = 0) as ->.
    { unfold Py.max, Py.min. py_cases; try reflexivity; lra. }
    vm_compute. reflexivity.
Qed.

Lemma curve_demands_bounded_witness :
  0 < 1
  /\ exists curve,
       calculate_elasticity_curve pow_integer
         (mkProduct "p1" "Robe" "R-1" "Other" 0 1 None 10) 1 1 (-5) = Some curve
       /\ forall pt, In pt curve -> -5 < 0 -> pt_demand pt == 0.
Proof.
  split; [reflexivity |].
  destruct (curve_demands_bounded pow_integer
              (mkProduct "p1" "Robe" "R-1" "Other" 0 1 None 10) 1 1 (-5) eq_refl)
    as (curve & Hc & H).
  exists curve. split; [exact Hc |].
  intros pt Hin. exact (proj2 (H pt Hin)).
Defined.

(** ** [get_elasticity_curve]: the optimum against the curve *)

Lemma round_int_comp x y : x == y -> Py.round_int x = Py.round_int y.
Proof.
  intros E. apply Z.le_antisymm; apply round_int_mono; lra.
Qed.

Lemma round_int_inject k : Py.round_int (inject_Z k) = k.
Proof.
  pose proof (round_int_near (inject_Z k)) as [Hlo Hhi].
  set (r := Py.round_int (inject_Z k)) in *. clearbody r.
  assert (inject_Z k < inject_Z (r + 1)) as H1.
  { rewrite inject_Z_plus. change (inject_Z 1) with 1.
    generalize dependent (inject_Z r). generalize (inject_Z k). intros; lra. }
  rewrite <- Zlt_Qlt in H1.
  assert (inject_Z r < inject_Z (k + 1)) as H2.
  { rewrite inject_Z_plus. change (inject_Z 1) with 1.
    generalize dependent (inject_Z r). generalize (inject_Z k). intros; lra. }
  rewrite <- Zlt_Qlt in H2. lia.
Qed.

(** Rounding a rounded number changes nothing. *)
Lemma round_idem x n : Py.round (Py.round x n) n == Py.round x n.
Proof.
  unfold Py.round at 1; cbv zeta.
  pose proof (scale_pos n) as Hs.
  set (s := inject_Z (10 ^ Z.of_nat n)) in *.
  assert (Py.round x n * s == inject_Z (Py.round_int (x * s))) as E.
  { unfold Py.round; cbv zeta. fold s. field. lra. }
  rewrite (round_int_comp _ _ E), round_int_inject. reflexivity.
Qed.

(** X9: whenever the endpoint answers, the optimal profit it reports is at least
    the profit of every point of the curve it returns. *)
Theorem optimal_profit_dominates :
  forall (rpow : Q -> Q -> Q) (product : Product) (suggested_price : Q)
         (curve : list CurveMetric) (optimal : Optimal),
    get_elasticity_curve rpow product suggested_price = Some (curve, optimal) ->
    forall m, In m curve -> cm_profit m <= optimalProfit optimal.
Proof.
  intros rpow product suggested_price curve optimal Hget m Hm.
  unfold get_elasticity_curve in Hget; cbv zeta in Hget.
  destruct (calculate_elasticity_curve _ _ _ _ _) as [data |] eqn:Hdata;
    [| discriminate Hget].
  apply for_each_length in Hdata. rewrite length_seq in Hdata.
  cbn [bind] in Hget.
  destruct (demand_at _ _ _ _ _); [| discriminate Hget].
  cbn [bind] in Hget.
  set (cost := cost_price product) in *.
  set (cwm := map (with_metrics cost) data) in *.
  assert (cwm <> []) as Hne.
  { intros E. apply (f_equal (@List.length _)) in E.
    subst cwm. rewrite length_map, Hdata in E. discriminate E. }
  destruct (discrete_max_greatest cwm Hne) as (best & Hb & Hin & Hle).
  pose proof (optimal_try_total rpow cost (current_price product)
                (if Py.gt (sales_velocity product) 0
                 then sales_velocity product else 100.0)
                (_estimate_elasticity product
                   (current_margin_of cost (current_price product)))
                cwm best Hb) as Ht.
  destruct (candidate _ _ _ _ _) as [[price demand] profit].
  unfold optimal_point in Hget. rewrite Ht in Hget. cbn [bind] in Hget.
  injection Hget as Hc <-. subst curve.
  specialize (Hle m Hm).
  destruct (_ && _); [| exact Hle].
  py_case (Py.ge profit (cm_profit best)); [| exact Hle].
  cbn [optimalProfit].
  apply Qle_trans with (cm_profit best); [exact Hle |].
  subst cwm. apply in_map_iff in Hin as (pt & <- & _).
  unfold with_metrics in *; cbv zeta in *. cbn [cm_profit] in *.
  rewrite <- round_idem. apply round_mono. exact E.
Qed.

Lemma optimal_profit_dominates_witness :
  exists curve optimal,
    get_elasticity_curve pow_integer
      (mkProduct "p1" "Robe" "R-1" "Other" 50 60 None 60) 70 = Some (curve, optimal)
    /\ forall m, In m curve -> cm_profit m <= optimalProfit optimal.
Proof.
  eexists _, _. split; [vm_compute; reflexivity |].
  apply (optimal_profit_dominates pow_integer
           (mkProduct "p1" "Robe" "R-1" "Other" 50 60 None 60) 70).
  vm_compute. reflexivity.
Defined.

(** ** [_validate_scraped_price]: the two trust tiers *)

(** X10: the bounds of a major retailer are looser: a price accepted from a source
    that is not a major retailer is accepted from any major retailer too. *)
Theorem major_retailer_looser :
  forall (price cost_price current_price : Q) (source major : option string),
    is_major_retailer source = false ->
    is_major_retailer major = true ->
    _validate_scraped_price price cost_price current_price source = true ->
    _validate_scraped_price price cost_price current_price major = true.
Proof.
  intros price cost_price current_price source major Hs Hm.
  unfold _validate_scraped_price; cbv zeta. rewrite Hs, Hm, !positive_check.
  py_cases; simpl; intros H; try discriminate H; try reflexivity; exfalso; lra.
Qed.

Lemma major_retailer_looser_witness :
  is_major_retailer (Some "ebay"%string) = false
  /\ is_major_retailer (Some "Amazon"%string) = true
  /\ _validate_scraped_price 60 100 80 (Some "ebay"%string) = true
  /\ _validate_scraped_price 60 100 80 (Some "Amazon"%string) = true.
Proof.
  split; [reflexivity |]. split; [reflexivity |]. split; [reflexivity |].
  apply (major_retailer_looser 60 100 80 (Some "ebay"%string) (Some "Amazon"%string));
    reflexivity.
Defined.

(** ** [scraper.py]: what the scraper hands over *)

Lemma min_price_values product_name category :
  let m := _get_min_price_for_product product_name category in
  m = 10.0 \/ m = 50.0 \/ m = 500.0 \/ m = 800.0 \/ m = 1000.0.
Proof.
  unfold _get_min_price_for_product; cbv zeta.
  destruct (contains "iphone" _).
  - destruct (any_keyword _ _); [tauto |]. destruct (contains "pro" _); tauto.
  - destruct (any_keyword _ _); [tauto |].
    destruct category as [c |]; [| tauto].
    destruct (truthy_string c && _); tauto.
Qed.

(** X11: the minimum expected price of a product is one of 10, 50, 500, 800 and
    1000, and at least 500 for a name that contains "iphone" in any case; a price
    that the scraper keeps is therefore between 10 and 100000 and is never rejected
    by the absolute bound of the validator. *)
Theorem scraped_price_bounds :
  forall (product_name : string) (category : option string) (price_val : Q),
    let min_price := _get_min_price_for_product product_name category in
    (min_price = 10.0 \/ min_price = 50.0 \/ min_price = 500.0
     \/ min_price = 800.0 \/ min_price = 1000.0)
    /\ (contains "iphone" (Py.lower product_name) = true -> 500 <= min_price)
    /\ (scraper_accepts price_val min_price = true ->
          min_price <= price_val /\ price_val <= 100000
          /\ ~ Rules.absolute_bound price_val).
Proof.
  intros product_name category price_val min_price.
  pose proof (min_price_values product_name category) as Hv. cbv zeta in Hv.
  fold min_price in Hv.
  split; [exact Hv |]. split.
  - intros Hi. subst min_price. unfold _get_min_price_for_product; cbv zeta.
    rewrite Hi. destruct (any_keyword _ _); [discriminate |].
    destruct (contains "pro" _); discriminate.
  - unfold scraper_accepts. rewrite !andb_true_iff, ge_true, !le_true.
    intros (H1 & H2 & H3). split; [exact H1 |]. split; [exact H3 |].
    unfold Rules.absolute_bound. lra.
Qed.

Lemma lower_ascii_idem c : Py.lower_ascii (Py.lower_ascii c) = Py.lower_ascii c.
Proof. destruct c as [[] [] [] [] [] [] [] []]; reflexivity. Qed.

Lemma lower_idem s : Py.lower (Py.lower s) = Py.lower s.
Proof.
  induction s as [| c s IH]; simpl; [reflexivity |].
  now rewrite lower_ascii_idem, IH.
Qed.

Lemma first_retailer_in table url_lower retailer :
  first_retailer table url_lower = Some retailer -> In retailer (map fst table).
Proof.
  induction table as [| [r patterns] rest IH]; simpl; [discriminate |].
  destruct (existsb _ patterns).
  - intros [= <-]. now left.
  - intros H. right. now apply IH.
Qed.

(** X12: the retailer name read off a URL does not depend on the case of the URL; it
    is one of the eleven names of the table or "google_shopping"; it is "amazon" as
    soon as the URL contains "amazon"; and the validator treats it as a major
    retailer unless it is "lowes", "ebay", "etsy", "costco", "newegg" or
    "google_shopping". *)
Theorem extract_retailer_name_facts :
  forall (url : string),
    let retailer := _extract_retailer_name url in
    _extract_retailer_name (Py.lower url) = retailer
    /\ (In retailer (map fst retailers) \/ retailer = "google_shopping"%string)
    /\ (contains "amazon" (Py.lower url) = true -> retailer = "amazon"%string)
    /\ is_major_retailer (Some retailer)
       = negb (Py.in_list retailer
                 ["lowes"; "ebay"; "etsy"; "costco"; "newegg"; "google_shopping"]%string).
Proof.
  intros url retailer.
  assert (In retailer (map fst retailers) \/ retailer = "google_shopping"%string)
    as Hin.
  { subst retailer. unfold _extract_retailer_name; cbv zeta.
    destruct (first_retailer retailers (Py.lower url)) eqn:E; [| now right].
    left. exact (first_retailer_in _ _ _ E). }
  split; [| split; [exact Hin | split]].
  - subst retailer. unfold _extract_retailer_name; cbv zeta.
    now rewrite lower_idem.
  - intros Ha. subst retailer. unfold _extract_retailer_name; cbv zeta.
    unfold retailers. cbn [first_retailer existsb]. rewrite Ha.
    rewrite orb_true_r. reflexivity.
  - clearbody retailer. simpl in Hin.
    destruct Hin as [Hin | ->]; [| reflexivity].
    repeat (destruct Hin as [H | Hin]; [subst retailer; reflexivity |]).
    destruct Hin.
Qed.

(** ** [scrape_google_shopping]: the final deduplication *)

Lemma unique_from_incl seen prices p :
  In p (unique_from seen prices) -> In p prices.
Proof.
  revert seen. induction prices as [| q rest IH]; simpl; intros seen H; [exact H |].
  destruct (existsb (same_key q) seen).
  - right. exact (IH _ H).
  - destruct H as [<- | H]; [now left | right; exact (IH _ H)].
Qed.

Lemma unique_from_fresh seen prices p :
  In p (unique_from seen prices) -> existsb (same_key p) seen = false.
Proof.
  revert seen. induction prices as [| q rest IH]; simpl; intros seen H; [destruct H |].
  destruct (existsb (same_key q) seen) eqn:E.
  - exact (IH _ H).
  - destruct H as [<- | H]; [exact E |].
    specialize (IH _ H). simpl in IH. now apply orb_false_iff in IH.
Qed.

Lemma unique_from_distinct seen prices :
  ForallOrdPairs (fun p q => same_key q p = false) (unique_from seen prices).
Proof.
  revert seen. induction prices as [| q rest IH]; simpl; intros seen; [constructor |].
  destruct (existsb (same_key q) seen); [apply IH |].
  constructor; [| apply IH].
  apply Forall_forall. intros p Hp.
  apply unique_from_fresh in Hp. simpl in Hp. now apply orb_false_iff in Hp.
Qed.

Lemma firstn_pairs {A} (R : A -> A -> Prop) n l :
  ForallOrdPairs R l -> ForallOrdPairs R (firstn n l).
Proof.
  intros H. revert n. induction H as [| a l Ha H IH]; intros n.
  - rewrite firstn_nil. constructor.
  - destruct n; simpl; [constructor |].
    constructor; [| apply IH].
    apply Forall_forall. intros x Hx. rewrite Forall_forall in Ha.
    apply Ha. clear - Hx. revert n Hx.
    induction l as [| b l IHl]; intros n Hx; destruct n; simpl in Hx;
      try contradiction.
    destruct Hx as [<- | Hx]; [now left | right; eauto].
Qed.

Lemma firstn_subset {A} n (l : list A) x : In x (firstn n l) -> In x l.
Proof.
  revert n. induction l as [| b l IH]; intros n Hx; destruct n; simpl in Hx;
    try contradiction.
  destruct Hx as [<- | Hx]; [now left | right; eauto].
Qed.

Lemma same_key_refl p : same_key p p = true.
Proof.
  unfold same_key. rewrite String.eqb_refl, andb_true_r.
  apply Qeq_bool_iff. reflexivity.
Qed.

Lemma same_key_trans p q r :
  same_key p q = true -> same_key q r = true -> same_key p r = true.
Proof.
  unfold same_key. rewrite !andb_true_iff, !Qeq_bool_iff, !String.eqb_eq.
  intros [H1 H2] [H3 H4]. split; [lra | congruence].
Qed.

Lemma same_key_sym p q : same_key p q = true -> same_key q p = true.
Proof.
  unfold same_key. rewrite !andb_true_iff, !Qeq_bool_iff, !String.eqb_eq.
  intros [H1 H2]. split; [lra | congruence].
Qed.

(** Every price has its pair among the ones kept or already seen. *)
Lemma unique_from_covers seen prices p :
  In p prices ->
  exists q, In q (seen ++ unique_from seen prices) /\ same_key p q = true.
Proof.
  revert seen. induction prices as [| a rest IH]; intros seen Hp; [destruct Hp |].
  simpl. destruct (existsb (same_key a) seen) eqn:E.
  - destruct Hp as [<- | Hp]; [| now apply IH].
    apply existsb_exists in E as (q & Hq & Hk).
    exists q. split; [apply in_or_app; now left | exact Hk].
  - destruct Hp as [<- | Hp].
    + exists a. split; [apply in_or_app; right; now left | apply same_key_refl].
    + destruct (IH (a :: seen) Hp) as (q & Hq & Hk).
      exists q. split; [| exact Hk].
      apply in_app_or in Hq. apply in_or_app.
      destruct Hq as [[<- | Hq] | Hq]; [right; now left | now left | right; now right].
Qed.

(** X13: the list returned by the scraper has at most 20 prices, all taken from the
    prices collected; no two of them have the same price and source; and when it
    has fewer than 20 prices, every collected price has its (price, source) pair in
    it. *)
Theorem deduplicate_facts :
  forall (prices : list ScrapedPrice),
    let unique_prices := deduplicate prices in
    (List.length unique_prices <= 20)%nat
    /\ (forall p, In p unique_prices -> In p prices)
    /\ ForallOrdPairs (fun p q => same_key p q = false) unique_prices
    /\ ((List.length unique_prices < 20)%nat ->
        forall p, In p prices ->
                  exists q, In q unique_prices /\ same_key p q = true).
Proof.
  intros prices unique_prices. subst unique_prices. unfold deduplicate.
  split; [| split; [| split]].
  - rewrite length_firstn. lia.
  - intros p Hp. apply firstn_subset in Hp. exact (unique_from_incl _ _ _ Hp).
  - apply firstn_pairs.
    pose proof (unique_from_distinct [] prices) as H.
    induction H as [| a l Ha H IH]; constructor; [| exact IH].
    rewrite Forall_forall in *. intros x Hx.
    specialize (Ha x Hx). apply not_true_iff_false. intros Hk.
    apply same_key_sym in Hk. congruence.
  - intros Hlen p Hp.
    assert (firstn 20 (unique_from [] prices) = unique_from [] prices) as ->.
    { apply firstn_all2. rewrite length_firstn in Hlen. lia. }
    destruct (unique_from_covers [] prices p Hp) as (q & Hq & Hk).
    exists q. split; [exact Hq | exact Hk].
Qed.

(** ** [calculateAveragePrice] and [get_price_range] *)




(** ** The cache of the scraper *)

Lemma cache_get_set cache key v : cache_get (cache_set cache key v) key = Some v.
Proof.
  induction cache as [| [k w] rest IH]; simpl.
  - now rewrite String.eqb_refl.
  - destruct (String.eqb key k) eqn:E; simpl; rewrite E; [reflexivity | exact IH].
Qed.

Lemma cache_get_set_other cache key key' v :
  key' <> key -> cache_get (cache_set cache key v) key' = cache_get cache key'.
Proof.
  intros N. induction cache as [| [k w] rest IH]; simpl.
  - replace (String.eqb key' key) with false; [reflexivity |].
    symmetry. now apply String.eqb_neq.
  - destruct (String.eqb key k) eqn:E; simpl.
    + apply String.eqb_eq in E. subst k.
      replace (String.eqb key' key) with false; [reflexivity |].
      symmetry. now apply String.eqb_neq.
    + destruct (String.eqb key' k); [reflexivity | exact IH].
Qed.

Lemma cache_get_del_other cache key key' :
  key' <> key -> cache_get (cache_del cache key) key' = cache_get cache key'.
Proof.
  intros N. induction cache as [| [k w] rest IH]; simpl; [reflexivity |].
  destruct (String.eqb key k) eqn:E; simpl.
  - apply String.eqb_eq in E. subst k.
    replace (String.eqb key' key) with false; [exact IH |].
    symmetry. now apply String.eqb_neq.
  - destruct (String.eqb key' k); [reflexivity | exact IH].
Qed.

Lemma cached_after_set cache key data stored now :
  _get_cached (_set_cache cache key data stored) key now
  = if Py.lt (now - stored) cache_duration then Some data else None.
Proof. unfold _get_cached, _set_cache. now rewrite cache_get_set. Qed.

(** X15: a list stored in the cache is read back under its key for less than an hour
    after it was stored and never from an hour on, whatever the cache held before;
    storing it changes nothing under another key. *)
Theorem cache_round_trip :
  forall (cache : Cache) (key : string) (data : list ScrapedPrice) (stored now : Q),
    (now - stored < 3600 ->
       _get_cached (_set_cache cache key data stored) key now = Some data)
    /\ (3600 <= now - stored ->
          _get_cached (_set_cache cache key data stored) key now = None)
    /\ (forall other, other <> key ->
          _get_cached (_set_cache cache key data stored) other now
          = _get_cached cache other now).
Proof.
  intros cache key data stored now.
  rewrite cached_after_set. unfold cache_duration.
  split; [| split].
  - intros H. apply lt_true in H. now rewrite H.
  - intros H. apply lt_false in H. now rewrite H.
  - intros other N. unfold _get_cached, _set_cache.
    now rewrite cache_get_set_other.
Qed.

(** X16: a forced refresh always scrapes and returns the fresh list; the next call
    without force, less than an hour after the list was stored, returns that list
    from the cache without scraping if it is not empty, and scrapes again if it is
    empty; a forced refresh changes nothing under the other keys. *)
Theorem forced_refresh_then_cached :
  forall (cache : Cache) (product_name : string) (category : option string)
         (fresh again : list ScrapedPrice) (now stored now' stored' : Q),
    let key := cache_key product_name category in
    let '(result, cache', scraped) :=
      scrape_all_sources cache product_name category true fresh now stored in
    result = fresh
    /\ scraped = true
    /\ (forall other, other <> key ->
          _get_cached cache' other now' = _get_cached cache other now')
    /\ (now' - stored < 3600 ->
          (fresh <> [] ->
             scrape_all_sources cache' product_name category false again now' stored'
             = (fresh, cache', false))
          /\ (fresh = [] ->
                scrape_all_sources cache' product_name category false again now'
                  stored'
                = (again, _set_cache cache' key again stored', true))).
Proof.
  intros cache product_name category fresh again now stored now' stored' key.
  unfold scrape_all_sources at 1; cbv zeta. simpl negb. cbv iota. fold key.
  set (cleared := match cache_get cache key with
                  | Some _ => cache_del cache key
                  | None => cache
                  end).
  split; [reflexivity |]. split; [reflexivity |]. split.
  - intros other N. unfold _get_cached, _set_cache.
    rewrite cache_get_set_other by exact N.
    subst cleared. destruct (cache_get cache key); [| reflexivity].
    now rewrite cache_get_del_other.
  - intros Hfresh.
    assert (_get_cached (_set_cache cleared key fresh stored) key now' = Some fresh)
      as Hhit.
    { rewrite cached_after_set. unfold cache_duration.
      apply lt_true in Hfresh. now rewrite Hfresh. }
    unfold scrape_all_sources; cbv zeta. simpl negb. cbv iota. fold key.
    rewrite Hhit. split.
    + intros Hne. apply nonempty_true in Hne. now rewrite Hne.
    + intros ->. reflexivity.
Qed.

Lemma forced_refresh_then_cached_witness :
  let fresh := [mkScraped 20 "amazon" "https://amazon.com/x"] in
  let '(result, cache', scraped) :=
    scrape_all_sources [] "Robe" None true fresh 0 1 in
  result = fresh /\ scraped = true
  /\ scrape_all_sources cache' "Robe" None false [] 100 101 = (fresh, cache', false).
Proof.
  cbv zeta.
  pose proof (forced_refresh_then_cached [] "Robe" None
                [mkScraped 20 "amazon" "https://amazon.com/x"] [] 0 1 100 101) as H.
  cbv zeta in H.
  destruct (scrape_all_sources [] "Robe" None true
              [mkScraped 20 "amazon" "https://amazon.com/x"] 0 1)
    as [[result cache'] scraped].
  destruct H as (Hr & Hs & _ & Hc).
  split; [exact Hr |]. split; [exact Hs |].
  apply Hc; [reflexivity | discriminate].
Defined.

(** ** [scan_prices] *)

Lemma average_lower l lo :
  l <> [] -> (forall p, In p l -> lo <= p) -> lo <= Py.sum l / Py.len l.
Proof.
  intros Hne H.
  destruct (min_list_least l Hne) as (m & _ & Hm).
  destruct (max_list_greatest l Hne) as (g & _ & Hg).
  pose proof (average_between l m g Hne Hm Hg) as [Ha _].
  specialize (H m (proj1 Hm)). lra.
Qed.

Lemma average_upper l hi :
  l <> [] -> (forall p, In p l -> p <= hi) -> Py.sum l / Py.len l <= hi.
Proof.
  intros Hne H.
  destruct (min_list_least l Hne) as (m & _ & Hm).
  destruct (max_list_greatest l Hne) as (g & _ & Hg).
  pose proof (average_between l m g Hne Hm Hg) as [_ Hb].
  specialize (H g (proj1 Hg)). lra.
Qed.

(** What the validator guarantees of a price it accepts, by tier. *)
Lemma validate_bounds price cost current source :
  _validate_scraped_price price cost current source = true ->
  let major := is_major_retailer source in
  0.01 <= price /\ price <= 1000000
  /\ (0 < cost -> cost * (if major then 0.4 else 0.5) <= price)
  /\ (100 < cost -> price <= cost * (if major then 15 else 10))
  /\ (0 < current ->
        current * (if major then 0.05 else 0.1) <= price
        /\ price <= current * (if major then 6.0 else 5.0)).
Proof.
  unfold _validate_scraped_price; cbv zeta. rewrite !positive_check.
  destruct (is_major_retailer source); py_cases; simpl; intros H;
    try discriminate H; repeat split; intros; lra.
Qed.

Lemma truthy_positive x : 0 < x -> truthy x = true.
Proof.
  intros H. unfold truthy. apply negb_true_iff, not_true_iff_false.
  rewrite Qeq_bool_iff. lra.
Qed.

(** The shape of the outcome once some price is validated. *)
Lemma scan_prices_validated product scraped_prices now :
  let validated := validated_prices product scraped_prices in
  let prices_list := map sp_price validated in
  let avg_price := Py.sum prices_list / Py.len prices_list in
  let rows := map (market_row now) validated in
  validated <> [] ->
  exists lo hi,
    least prices_list lo /\ greatest prices_list hi
    /\ 0.01 <= avg_price /\ lo <= avg_price <= hi
    /\ scan_prices product scraped_prices now
       = match average_range_check (current_price product)
                 (average_cost_check (cost_price product) avg_price) with
         | None =>
             {| scan_response := ScanFailed; scan_saved := [];
                scan_competitor_price := competitor_price product |}
         | Some (Some a) =>
             {| scan_response :=
                  ScanSuccess avg_price (lo, hi, avg_price)
                    (List.length scraped_prices);
                scan_saved := rows;
                scan_competitor_price := Some avg_price |}
         | Some None =>
             {| scan_response := ScanNoValidAverage (List.length scraped_prices);
                scan_saved := rows;
                scan_competitor_price := competitor_price product |}
         end.
Proof.
  intros validated prices_list avg_price rows Hne.
  assert (prices_list <> []) as Hp.
  { subst prices_list. destruct validated; [congruence | discriminate]. }
  assert (scraped_prices <> []) as Hs.
  { intros ->. now apply Hne. }
  destruct (min_list_least _ Hp) as (lo & Hlo & Hleast).
  destruct (max_list_greatest _ Hp) as (hi & Hhi & Hgreatest).
  pose proof (average_between _ _ _ Hp Hleast Hgreatest) as Hbetween.
  assert (0.01 <= avg_price) as Hpos.
  { apply average_lower; [exact Hp |]. intros p Hin.
    subst prices_list. apply in_map_iff in Hin as (x & <- & Hx).
    subst validated. unfold validated_prices in Hx. apply filter_In in Hx as [_ Hx].
    now apply validate_bounds in Hx. }
  exists lo, hi. repeat (split; [assumption |]).
  unfold scan_prices; cbv zeta.
  apply nonempty_true in Hs. rewrite Hs. simpl negb. cbv iota.
  fold validated. apply nonempty_true in Hne. rewrite Hne. simpl negb. cbv iota.
  fold prices_list. rewrite Hlo, Hhi. fold avg_price.
  rewrite (truthy_positive avg_price) by lra.
  assert (forall c a b, average_cost_check c a = Some b -> b = a) as Hcost.
  { intros c a b. unfold average_cost_check.
    destruct (Py.gt c 0); [| congruence].
    destruct (Py.lt a _); [discriminate |].
    destruct (_ && _); [discriminate | congruence]. }
  assert (forall c a b, average_range_check c a = Some (Some b) -> a = Some b)
    as Hrange.
  { intros c a b. unfold average_range_check.
    destruct (Py.gt c 0); [| congruence].
    destruct a as [a |]; [| discriminate]. cbv zeta.
    destruct (_ || _); [discriminate | congruence]. }
  destruct (average_range_check _ _) as [[a |] |] eqn:E; try reflexivity.
  apply Hrange in E. apply Hcost in E. subst a.
  rewrite (truthy_positive avg_price) by lra. reflexivity.
Qed.




(** X18: when some price is validated but the average fails the check against a
    positive cost (below half the cost, or above ten times a cost above 100), the
    scan of a product with a positive current price fails with nothing saved: the
    check against the current price compares the discarded average.  With a
    current price that is not positive, the answer is "no valid average" and the
    validated rows are saved all the same. *)
Theorem scan_average_rejected_by_cost :
  forall (product : Product) (scraped_prices : list ScrapedPrice) (now : Timestamp),
    let validated := validated_prices product scraped_prices in
    let avg_price := Py.sum (map sp_price validated) / Py.len (map sp_price validated) in
    validated <> [] ->
    0 < cost_price product ->
    (avg_price < cost_price product * 0.5
     \/ (cost_price product * 10 < avg_price /\ 100 < cost_price product)) ->
    (0 < current_price product ->
       scan_prices product scraped_prices now
       = {| scan_response := ScanFailed; scan_saved := [];
            scan_competitor_price := competitor_price product |})
    /\ (current_price product <= 0 ->
          scan_prices product scraped_prices now
          = {| scan_response := ScanNoValidAverage (List.length scraped_prices);
               scan_saved := map (market_row now) validated;
               scan_competitor_price := competitor_price product |}).
Proof.
  intros product scraped_prices now validated avg_price Hne Hcost Hrej.
  destruct (scan_prices_validated product scraped_prices now Hne)
    as (lo & hi & _ & _ & _ & _ & Hscan).
  fold validated in Hscan. fold avg_price in Hscan.
  assert (average_cost_check (cost_price product) avg_price = None) as Hc.
  { unfold average_cost_check. apply gt_true in Hcost as ->.
    py_case (Py.lt avg_price (cost_price product * 0.5)); [reflexivity |].
    destruct Hrej as [H | [H1 H2]]; [lra |].
    apply gt_true in H1, H2. now rewrite H1, H2. }
  rewrite Hc in Hscan. unfold average_range_check in Hscan.
  split; intros Hcur.
  - apply gt_true in Hcur. rewrite Hcur in Hscan. exact Hscan.
  - apply gt_false in Hcur. rewrite Hcur in Hscan. exact Hscan.
Qed.

Lemma scan_average_rejected_by_cost_witness :
  let product := mkProduct "p1" "Robe" "R-1" "Other" 100 100 None 1 in
  let scraped := [mkScraped 45 "amazon" "https://amazon.com/x"] in
  validated_prices product scraped <> []
  /\ 0 < cost_price product
  /\ 0 < current_price product
  /\ scan_prices product scraped (mkTimestamp 2024 1 2 9 5 0)
     = {| scan_response := ScanFailed; scan_saved := [];
          scan_competitor_price := None |}.
Proof.
  cbv zeta.
  assert (validated_prices (mkProduct "p1" "Robe" "R-1" "Other" 100 100 None 1)
            [mkScraped 45 "amazon" "https://amazon.com/x"] <> []) as H
    by (vm_compute; discriminate).
  split; [exact H |]. split; [reflexivity |]. split; [reflexivity |].
  apply (scan_average_rejected_by_cost
           (mkProduct "p1" "Robe" "R-1" "Other" 100 100 None 1)
           [mkScraped 45 "amazon" "https://amazon.com/x"]
           (mkTimestamp 2024 1 2 9 5 0) H eq_refl).
  - left. vm_compute. reflexivity.
  - reflexivity.
Defined.



(** ** From a scan to the market data of the product *)

(** Rows scraped at one time make one session. *)
Lemma same_time_fold now rows : forall items,
  (forall row, In row rows -> md_scraped_at row = Some now) ->
  fold_left
    (fun d md =>
       match md_scraped_at md with
       | Some t =>
           append_item (session_key t)
             {| i_price := md_price md; i_timestamp := t; i_source := md_source md |} d
       | None => d
       end) rows [(session_key now, items)]
  = [(session_key now,
      items ++ map (fun md => {| i_price := md_price md; i_timestamp := now;
                                 i_source := md_source md |}) rows)].
Proof.
  induction rows as [| row rows IH]; intros items H.
  - simpl. now rewrite app_nil_r.
  - cbn [fold_left]. rewrite (H row (or_introl eq_refl)).
    cbn [append_item]. rewrite key_eqb_refl.
    rewrite IH by (intros r Hr; apply H; now right).
    cbn [map]. now rewrite <- app_assoc.
Qed.

Lemma same_time_sessions now row rows :
  (forall r, In r (row :: rows) -> md_scraped_at r = Some now) ->
  scan_sessions (row :: rows)
  = [(session_key now,
      map (fun md => {| i_price := md_price md; i_timestamp := now;
                        i_source := md_source md |}) (row :: rows))].
Proof.
  intros H. unfold scan_sessions. cbn [fold_left].
  rewrite (H row (or_introl eq_refl)). cbn [append_item].
  rewrite same_time_fold by (intros r Hr; apply H; now right).
  reflexivity.
Qed.

(** X20: the rows saved by a scan, read back as the market data of a product that
    had none, make exactly one scan session at the date and hour of the scan: the
    trend has one entry counting every saved row, and both the current
    distribution and the list of all prices are the saved prices in their order. *)
Theorem scan_makes_one_session :
  forall (product : Product) (scraped_prices : list ScrapedPrice) (now : Timestamp),
    let saved := scan_saved (scan_prices product scraped_prices now) in
    saved <> [] ->
    exists r s,
      get_product_market_data saved = Some r
      /\ trend r = [s]
      /\ session_key (s_timestamp s) = session_key now
      /\ s_count s = List.length saved
      /\ currentDistribution r = map md_price saved
      /\ allPrices r = map md_price saved
      /\ totalDataPoints r = List.length saved
      /\ scanSessions r = Some 1%nat.
Proof.
  intros product scraped_prices now saved Hne.
  assert (forall r, In r saved -> md_scraped_at r = Some now) as Htime.
  { intros r Hr. subst saved. unfold scan_prices in Hr; cbv zeta in Hr.
    destruct (negb (nonempty scraped_prices)); [destruct Hr |].
    destruct (negb (nonempty (validated_prices _ _))); [destruct Hr |].
    destruct (Py.min_list _); [| destruct Hr].
    destruct (Py.max_list _); [| destruct Hr].
    destruct (if truthy _ then _ else _) as [[a |] |]; [| | destruct Hr].
    - destruct (truthy a); simpl in Hr;
        apply in_map_iff in Hr as (p & <- & _); reflexivity.
    - simpl in Hr. apply in_map_iff in Hr as (p & <- & _). reflexivity. }
  clearbody saved. destruct saved as [| row rows]; [congruence |].
  pose proof (same_time_sessions now row rows Htime) as Hd.
  set (items := map (fun md => {| i_price := md_price md; i_timestamp := now;
                                   i_source := md_source md |}) (row :: rows)) in *.
  assert (map i_price items = map md_price (row :: rows)) as Hprices.
  { subst items. rewrite map_map. reflexivity. }
  destruct (summarize_session items) as (s & first & rest & Ei & Hs & Hts & _ & _ & _ & _ & Hcnt & _);
    [subst items; discriminate |].
  exists {| trend := [s]; currentDistribution := map md_price (row :: rows);
            allPrices := map md_price (row :: rows);
            totalDataPoints := List.length (row :: rows);
            scanSessions := Some 1%nat |}, s.
  split.
  - unfold get_product_market_data. cbn [nonempty negb]. cbv zeta.
    rewrite Hd. unfold sorted_keys.
    cbn [map fst fold_right insert_key get_session rev app List.length Nat.eqb bind].
    rewrite key_eqb_refl. rewrite Hs.
    cbn [flat_map fst snd option_list app]. rewrite !app_nil_r, Hprices.
    reflexivity.
  - cbn [trend currentDistribution allPrices totalDataPoints scanSessions].
    split; [reflexivity |].
    split; [rewrite Hts; subst items; simpl in Ei; injection Ei as <- _; reflexivity |].
    split; [rewrite Hcnt, Hprices; apply length_map |].
    repeat split.
Qed.

Lemma scan_makes_one_session_witness :
  let product := mkProduct "p1" "Robe" "R-1" "Other" 100 120 None 1 in
  let scraped := [mkScraped 110 "amazon" "u1"; mkScraped 130 "etsy" "u2"] in
  let saved := scan_saved (scan_prices product scraped (mkTimestamp 2024 1 2 9 5 0)) in
  saved <> []
  /\ exists r, get_product_market_data saved = Some r
               /\ currentDistribution r = map md_price saved.
Proof.
  cbv zeta.
  assert (scan_saved
            (scan_prices (mkProduct "p1" "Robe" "R-1" "Other" 100 120 None 1)
               [mkScraped 110 "amazon" "u1"; mkScraped 130 "etsy" "u2"]
               (mkTimestamp 2024 1 2 9 5 0)) <> []) as H
    by (vm_compute; discriminate).
  split; [exact H |].
  destruct (scan_makes_one_session _ _ _ H) as (r & s & Hr & _ & _ & _ & Hd & _).
  exists r. split; [exact Hr | exact Hd].
Defined.

(** ** [get_product_market_data]: nothing is lost or counted twice *)

(** The answer for a non-empty list of rows, in terms of the sorted keys. *)
Lemma market_data_shape market_data :
  market_data <> [] ->
  let d := scan_sessions market_data in
  let ks := sorted_keys d in
  NoDup ks
  /\ List.length ks = List.length d
  /\ (forall k, In k ks <-> session_rows k market_data <> [])
  /\ exists trend_data,
       map (fun s => session_key (s_timestamp s)) trend_data = ks
       /\ Forall (fun s => summarizes
                             (session_rows (session_key (s_timestamp s)) market_data)
                             s) trend_data
       /\ forall r, get_product_market_data market_data = Some r ->
                    trend r = trend_data
                    /\ allPrices r
                       = flat_map (fun k => map md_price (session_rows k market_data))
                                  ks
                    /\ totalDataPoints r = List.length market_data
                    /\ scanSessions r = Some (List.length d)
                    /\ currentDistribution r <> [].
Proof.
  intros Hne d ks.
  destruct (scan_sessions_spec market_data) as (Hnd & Hkeys & Hprices & Hfull).
  cbv zeta in *. fold d in Hnd, Hkeys, Hprices, Hfull.
  destruct (sorted_fold (map fst d) Hnd) as [Hsorted Hperm].
  fold (sorted_keys d) in Hsorted, Hperm. fold ks in Hsorted, Hperm.
  assert (forall k, In k ks <-> In k (map fst d)) as Hin.
  { intros k. split; apply Permutation_in; [exact Hperm | now symmetry]. }
  assert (forall k, In k ks -> get_session k d <> []) as Hks.
  { intros k Hk. apply Hfull, Hin, Hk. }
  destruct (trend_rounds d ks Hks) as [HF2 Hall]. cbv zeta in HF2, Hall.
  destruct (trend_keys market_data ks _ Hks HF2) as [Hmap Hsum].
  split; [apply (Permutation_NoDup (Permutation_sym Hperm) Hnd) |].
  split; [rewrite (Permutation_length Hperm); apply length_map |].
  split; [intros k; rewrite Hin; apply Hkeys |].
  eexists. split; [exact Hmap |]. split; [exact Hsum |].
  intros r Hget. unfold get_product_market_data in Hget.
  apply nonempty_true in Hne. rewrite Hne in Hget. cbn [negb] in Hget.
  cbv zeta in Hget. fold d in Hget. fold ks in Hget.
  assert (flat_map snd (map (fun k => summarize (get_session k d)) ks) <> []
          \/ ks = []) as Hprices_ne.
  { destruct ks as [| k ks']; [now right | left].
    rewrite Hall. simpl. intros E. apply app_eq_nil in E as [E _].
    apply map_eq_nil in E. apply (Hks k); [now left | exact E]. }
  destruct (List.length d =? 1)%nat eqn:E1.
  - cbn [bind] in Hget. injection Hget as <-.
    cbn [trend allPrices totalDataPoints scanSessions currentDistribution].
    split; [reflexivity |].
    split; [rewrite Hall; apply flat_map_ext; intros k; apply Hprices |].
    split; [reflexivity |]. split; [reflexivity |].
    assert (ks <> []) as Hk.
    { intros H. apply Nat.eqb_eq in E1. apply (f_equal (@List.length _)) in H.
      rewrite (Permutation_length Hperm), length_map, E1 in H. discriminate H. }
    destruct Hprices_ne as [H | H]; [| congruence].
    apply nonempty_true in H as En. rewrite En. exact H.
  - destruct (rev ks) as [| latest before] eqn:Er; [discriminate Hget |].
    cbn [bind] in Hget. injection Hget as <-.
    cbn [trend allPrices totalDataPoints scanSessions currentDistribution].
    split; [reflexivity |].
    split; [rewrite Hall; apply flat_map_ext; intros k; apply Hprices |].
    split; [reflexivity |]. split; [reflexivity |].
    assert (In latest ks) as Hl by (apply in_rev; rewrite Er; now left).
    assert (map i_price (get_session latest d) <> []) as Hlatest.
    { intros E. apply map_eq_nil in E. now apply (Hks latest Hl). }
    apply nonempty_true in Hlatest as En. rewrite En. exact Hlatest.
Qed.

Lemma session_rows_cons k row rows :
  session_rows k (row :: rows)
  = if in_session k row then row :: session_rows k rows else session_rows k rows.
Proof. reflexivity. Qed.

Lemma in_session_key k row :
  in_session k row = true <-> exists t, md_scraped_at row = Some t /\ session_key t = k.
Proof.
  unfold in_session. destruct (md_scraped_at row) as [t |].
  - rewrite key_eqb_eq. split.
    + intros <-. now exists t.
    + intros (t' & [= <-] & E). exact E.
  - split; [discriminate | intros (t' & E & _); discriminate E].
Qed.

(** Gathering the rows session by session only reorders the rows that have a
    timestamp, whatever the order of the keys. *)
Lemma sessions_partition ks rows :
  NoDup ks ->
  (forall row t, In row rows -> md_scraped_at row = Some t -> In (session_key t) ks) ->
  Permutation (flat_map (fun k => session_rows k rows) ks) (filter has_timestamp rows).
Proof.
  intros Hnd. induction rows as [| row rows IH]; intros Hcover.
  - assert (flat_map (fun k => session_rows k []) ks = []) as ->; [| constructor].
    clear. induction ks as [| k ks IHk]; simpl; [reflexivity | exact IHk].
  - assert (Permutation (flat_map (fun k => session_rows k rows) ks)
                        (filter has_timestamp rows)) as IH'.
    { apply IH. intros r t Hr. apply Hcover. now right. }
    simpl filter. unfold has_timestamp at 1.
    destruct (md_scraped_at row) as [t |] eqn:Et.
    + assert (In (session_key t) ks) as Hk by (apply (Hcover row t); [now left | exact Et]).
      apply in_split in Hk as (ks1 & ks2 & ->).
      apply NoDup_remove_2 in Hnd.
      assert (forall l, ~ In (session_key t) l ->
                        flat_map (fun k => session_rows k (row :: rows)) l
                        = flat_map (fun k => session_rows k rows) l) as Hother.
      { intros l Hl.
        induction l as [| k l IHl]; cbn [flat_map]; [reflexivity |].
        rewrite IHl by (intros H; apply Hl; now right).
        f_equal. rewrite session_rows_cons.
        replace (in_session k row) with false; [reflexivity |].
        symmetry. apply not_true_iff_false. intros H.
        apply in_session_key in H as (t' & E & Hk). rewrite Et in E.
        injection E as <-. apply Hl. now left. }
      rewrite !flat_map_app in *. cbn [flat_map] in *.
      rewrite session_rows_cons.
      replace (in_session (session_key t) row) with true
        by (symmetry; apply in_session_key; now exists t).
      rewrite !Hother by (intros H; apply Hnd, in_or_app; tauto).
      rewrite <- app_comm_cons. apply Permutation_sym.
      apply Permutation_cons_app. apply Permutation_sym. exact IH'.
    + assert (flat_map (fun k => session_rows k (row :: rows)) ks
              = flat_map (fun k => session_rows k rows) ks) as ->; [| exact IH'].
      apply flat_map_ext. intros k. rewrite session_rows_cons.
      unfold in_session. now rewrite Et.
Qed.

Lemma map_of_flat_map {A B C} (f : B -> C) (g : A -> list B) l :
  map f (flat_map g l) = flat_map (fun x => map f (g x)) l.
Proof.
  induction l as [| a l IH]; simpl; [reflexivity |].
  now rewrite map_app, IH.
Qed.

Lemma counts_of_sessions market_data trend_data :
  Forall (fun s => summarizes
                     (session_rows (session_key (s_timestamp s)) market_data) s)
         trend_data ->
  list_sum (map s_count trend_data)
  = List.length
      (flat_map (fun k => session_rows k market_data)
                (map (fun s => session_key (s_timestamp s)) trend_data)).
Proof.
  induction 1 as [| s l Hs _ IH]; simpl; [reflexivity |].
  rewrite length_app, IH. f_equal.
  unfold summarizes in Hs; cbv zeta in Hs. tauto.
Qed.

(** X21: whenever the endpoint answers, the list of all prices is a reordering of
    the prices of the rows that have a timestamp, the counts of the sessions add up
    to the number of those rows, and the total counts every row; for at least one
    row the number of sessions is the length of the trend and neither the trend nor
    the current distribution is empty. *)
Theorem market_data_keeps_every_row :
  forall (market_data : list MarketData) (r : MarketResponse),
    get_product_market_data market_data = Some r ->
    Permutation (allPrices r) (map md_price (filter has_timestamp market_data))
    /\ list_sum (map s_count (trend r))
       = List.length (filter has_timestamp market_data)
    /\ totalDataPoints r = List.length market_data
    /\ (market_data <> [] ->
          scanSessions r = Some (List.length (trend r))
          /\ trend r <> []
          /\ currentDistribution r <> []).
Proof.
  intros market_data r Hget.
  destruct market_data as [| row rows] eqn:Emd.
  { injection Hget as <-. simpl.
    repeat split; try reflexivity; try constructor; congruence. }
  rewrite <- Emd in *.
  assert (market_data <> []) as Hne by (rewrite Emd; discriminate).
  destruct (market_data_shape market_data Hne)
    as (Hnd & Hlen & Hkeys & trend_data & Hmap & Hsum & Hanswer).
  cbv zeta in *.
  destruct (Hanswer r Hget) as (Htrend & Hall & Htotal & Hsessions & Hdist).
  set (ks := sorted_keys (scan_sessions market_data)) in *.
  assert (Permutation (flat_map (fun k => session_rows k market_data) ks)
                      (filter has_timestamp market_data)) as Hperm.
  { apply sessions_partition; [exact Hnd |].
    intros x t Hx Ht. apply Hkeys. intros E.
    assert (In x (session_rows (session_key t) market_data)) as Hin.
    { unfold session_rows. apply filter_In. split; [exact Hx |].
      apply in_session_key. now exists t. }
    rewrite E in Hin. destruct Hin. }
  split; [| split; [| split]].
  - rewrite Hall, <- map_of_flat_map. now apply Permutation_map.
  - rewrite Htrend, (counts_of_sessions market_data trend_data Hsum), Hmap.
    now apply Permutation_length.
  - exact Htotal.
  - intros _. rewrite Hsessions, Htrend.
    assert (List.length trend_data = List.length ks) as Hl
      by (rewrite <- Hmap; now rewrite length_map).
    split; [now rewrite Hl, Hlen |]. split; [| exact Hdist].
    intros E. rewrite E in Hl. simpl in Hl.
    assert (ks = []) as Hk by (destruct ks; [reflexivity | discriminate Hl]).
    unfold get_product_market_data in Hget.
    apply nonempty_true in Hne. rewrite Hne in Hget. cbn [negb] in Hget.
    cbv zeta in Hget. fold ks in Hget. rewrite Hk in Hget.
    rewrite <- Hlen, Hk in Hget. discriminate Hget.
Qed.

Lemma market_data_keeps_every_row_witness :
  let rows :=
    [mkMarketData "amazon" 10 (Some (mkTimestamp 2024 1 2 9 5 0));
     mkMarketData "ebay" 12 None;
     mkMarketData "ebay" 14 (Some (mkTimestamp 2024 1 2 8 30 0))] in
  exists r,
    get_product_market_data rows = Some r
    /\ Permutation (allPrices r) [10; 14]
    /\ totalDataPoints r = 3%nat.
Proof.
  cbv zeta. eexists. split; [vm_compute; reflexivity |].
  match goal with
  | |- Permutation (allPrices ?r) _ /\ _ =>
      destruct (market_data_keeps_every_row
                  [mkMarketData "amazon" 10 (Some (mkTimestamp 2024 1 2 9 5 0));
                   mkMarketData "ebay" 12 None;
                   mkMarketData "ebay" 14 (Some (mkTimestamp 2024 1 2 8 30 0))] r)
        as (Hp & _ & Ht & _)
  end.
  - vm_compute. reflexivity.
  - split; [exact Hp | exact Ht].
Defined.

(** ** [create_recommendation]: one pending recommendation per product *)

Lemma find_filter {A} (f : A -> bool) l :
  (find f l = None <-> filter f l = [])
  /\ (forall x, find f l = Some x -> In x l /\ f x = true /\ filter f l <> []).
Proof.
  induction l as [| a l [IH1 IH2]]; simpl.
  - split; [tauto | discriminate].
  - destruct (f a) eqn:E; split.
    + split; discriminate.
    + intros x [= <-]. repeat split; [now left | exact E | discriminate].
    + exact IH1.
    + intros x Hx. destruct (IH2 x Hx) as (H1 & H2 & H3).
      repeat split; [now right | exact H2 | exact H3].
Qed.

Lemma is_pending_for_updated q row output :
  is_pending_for q {| rec_id := rec_id row; rec_product_id := rec_product_id row;
                      rec_status := rec_status row; rec_output := output |}
  = is_pending_for q row.
Proof. reflexivity. Qed.

Lemma update_pending_count table pid output q :
  pending_count (update_pending table pid output) q = pending_count table q.
Proof.
  unfold pending_count. induction table as [| row rest IH]; simpl; [reflexivity |].
  destruct (is_pending_for pid row) eqn:E; simpl.
  - rewrite is_pending_for_updated. destruct (is_pending_for q row); reflexivity.
  - destruct (is_pending_for q row); simpl; now rewrite IH.
Qed.

Lemma update_pending_length table pid output :
  List.length (update_pending table pid output) = List.length table.
Proof.
  induction table as [| row rest IH]; simpl; [reflexivity |].
  destruct (is_pending_for pid row); simpl; [reflexivity | now rewrite IH].
Qed.

Lemma update_pending_keeps table pid output row :
  In row table -> is_pending_for pid row = false ->
  In row (update_pending table pid output).
Proof.
  induction table as [| r rest IH]; simpl; [tauto |].
  intros [<- | Hin] Hrow.
  - rewrite Hrow. now left.
  - destruct (is_pending_for pid r); [now right | right; now apply IH].
Qed.

Lemma update_pending_found table pid output row :
  find_pending table pid = Some row ->
  In {| rec_id := rec_id row; rec_product_id := rec_product_id row;
        rec_status := rec_status row; rec_output := output |}
     (update_pending table pid output).
Proof.
  unfold find_pending. induction table as [| r rest IH]; simpl; [discriminate |].
  destruct (is_pending_for pid r) eqn:E.
  - intros [= <-]. now left.
  - intros H. right. now apply IH.
Qed.

(** X22: a call of [create_recommendation] leaves the product with exactly one pending
    recommendation when it had none (answer 201, one row more), and with as many
    as before when it had some (answer 200, the first one updated in place or
    returned as it is); the row returned is pending, belongs to the product and is
    in the table afterwards; the number of pending recommendations of every other
    product and every row that is not a pending recommendation of the product are
    left as they were. *)
Theorem create_recommendation_lifecycle :
  forall (table : list RecommendationRow) (product : Product)
         (recent_market_data : list MarketData) (scraped_prices : list ScrapedPrice)
         (new_id : string),
    let c := create_recommendation table product recent_market_data scraped_prices
               new_id in
    let pid := id product in
    (pending_count table pid = 0%nat ->
       pending_count (cr_table c) pid = 1%nat
       /\ cr_code c = 201%nat
       /\ List.length (cr_table c) = S (List.length table))
    /\ (pending_count table pid <> 0%nat ->
          pending_count (cr_table c) pid = pending_count table pid
          /\ cr_code c = 200%nat
          /\ List.length (cr_table c) = List.length table)
    /\ (forall q, q <> pid -> pending_count (cr_table c) q = pending_count table q)
    /\ (forall row, In row table -> is_pending_for pid row = false ->
                    In row (cr_table c))
    /\ In (cr_row c) (cr_table c)
    /\ is_pending_for pid (cr_row c) = true.
Proof.
  intros table product recent_market_data scraped_prices new_id c pid.
  subst c. unfold create_recommendation; cbv zeta. fold pid.
  destruct (gather_prices product recent_market_data scraped_prices)
    as [[competitor_prices saved] scraped].
  destruct (find_filter (is_pending_for pid) table) as [Hnone Hsome].
  fold (find_pending table pid) in Hnone, Hsome.
  destruct (find_pending table pid) as [row |] eqn:Ef.
  - destruct (Hsome row eq_refl) as (Hin & Hrow & Hne).
    assert (pending_count table pid <> 0%nat) as Hcount.
    { unfold pending_count. destruct (filter _ table); [congruence | discriminate]. }
    destruct (nonempty recent_market_data && _);
      cbn [cr_code cr_row cr_table].
    + split; [intros H; congruence |].
      split; [intros _; rewrite update_pending_count, update_pending_length; auto |].
      split; [intros q _; apply update_pending_count |].
      split; [intros r Hr Hp; now apply update_pending_keeps |].
      split; [now apply update_pending_found |].
      rewrite is_pending_for_updated. exact Hrow.
    + split; [intros H; congruence |].
      repeat (split; auto).
  - assert (pending_count table pid = 0%nat) as Hcount.
    { unfold pending_count. now rewrite (proj1 Hnone eq_refl). }
    cbn [cr_code cr_row cr_table].
    assert (forall q, pending_count
                        (table ++ [{| rec_id := new_id; rec_product_id := pid;
                                      rec_status := "pending";
                                      rec_output := optimize_price product
                                                      competitor_prices |}]) q
                      = (pending_count table q
                         + if String.eqb pid q then 1 else 0)%nat) as Happ.
    { intros q. unfold pending_count. rewrite filter_app, length_app. f_equal.
      cbn [filter]. unfold is_pending_for at 1. simpl.
      destruct (String.eqb pid q); reflexivity. }
    split.
    + intros _. rewrite Happ, Hcount, String.eqb_refl.
      split; [reflexivity |]. split; [reflexivity |].
      rewrite length_app. simpl. lia.
    + split; [intros H; congruence |].
      split.
      * intros q N. rewrite Happ.
        replace (String.eqb pid q) with false; [lia |].
        symmetry. apply String.eqb_neq. congruence.
      * split; [intros r Hr _; apply in_or_app; now left |].
        split; [apply in_or_app; right; now left |].
        unfold is_pending_for. simpl. now rewrite String.eqb_refl.
Qed.

(** X23: [create_recommendation] returns the pending recommendation of the product
    untouched, without scraping or saving anything, when there is no market data
    of the last 24 hours; in every other case the row it returns holds the output
    of the optimizer on the recent market prices if there are any, else on the
    competitor price of the product if it has one that is not zero, else on the
    scraped prices that pass the check of lines 126-137 (on no price if none
    does); the scraper is called in that last case only, and only what passes the
    check is saved. *)
Theorem create_recommendation_sources :
  forall (table : list RecommendationRow) (product : Product)
         (recent_market_data : list MarketData) (scraped_prices : list ScrapedPrice)
         (new_id : string),
    let c := create_recommendation table product recent_market_data scraped_prices
               new_id in
    let existing := find_pending table (id product) in
    let accepted := filter (creation_accepts product) scraped_prices in
    (existing <> None /\ recent_market_data = [] ->
       existing = Some (cr_row c) /\ cr_table c = table
       /\ cr_saved c = [] /\ cr_scraped c = false)
    /\ (existing = None \/ recent_market_data <> [] ->
          (recent_market_data <> [] ->
             rec_output (cr_row c)
             = optimize_price product (map md_price recent_market_data)
             /\ cr_saved c = [] /\ cr_scraped c = false)
          /\ (recent_market_data = [] ->
                forall p, competitor_price product = Some p -> ~ p == 0 ->
                          rec_output (cr_row c) = optimize_price product [p]
                          /\ cr_saved c = [] /\ cr_scraped c = false)
          /\ (recent_market_data = [] ->
                truthy_price (competitor_price product) = false ->
                rec_output (cr_row c)
                = optimize_price product (map sp_price accepted)
                /\ cr_saved c = accepted /\ cr_scraped c = true)).
Proof.
  intros table product recent_market_data scraped_prices new_id c existing accepted.
  assert (forall prices saved scraped,
            gather_prices product recent_market_data scraped_prices
            = (prices, saved, scraped) ->
            existing = None \/ recent_market_data <> [] ->
            rec_output (cr_row c) = optimize_price product prices
            /\ cr_saved c = saved /\ cr_scraped c = scraped) as Hproceed.
  { intros prices saved scraped Hg Hcase. subst c.
    unfold create_recommendation; cbv zeta. fold existing. rewrite Hg.
    destruct existing as [row |].
    - destruct Hcase as [H | H]; [discriminate H |].
      apply nonempty_true in H as Hn. rewrite Hn.
      replace (0 <? List.length recent_market_data)%nat with true.
      + simpl. auto.
      + symmetry. apply Nat.ltb_lt. destruct recent_market_data; [congruence | simpl; lia].
    - simpl. auto. }
  split.
  - intros [Hex ->]. subst c. unfold create_recommendation; cbv zeta. fold existing.
    destruct existing as [row |]; [| congruence].
    destruct (gather_prices _ _ _) as [[? ?] ?]. simpl. auto.
  - intros Hcase. split; [| split].
    + intros Hne. apply (Hproceed _ _ _); [| exact Hcase].
      unfold gather_prices; cbv zeta.
      apply nonempty_true in Hne as Hn. rewrite Hn.
      destruct (map md_price recent_market_data) eqn:E; [| reflexivity].
      apply map_eq_nil in E. congruence.
    + intros -> p Hp Hnz. apply (Hproceed _ _ _); [| exact Hcase].
      unfold gather_prices; cbv zeta. rewrite Hp. simpl.
      unfold truthy. replace (Qeq_bool p 0) with false; [reflexivity |].
      symmetry. apply not_true_iff_false. now rewrite Qeq_bool_iff.
    + intros -> Hfalsy.
      assert (gather_prices product [] scraped_prices
              = (map sp_price accepted, accepted, true)) as Hg.
      { unfold gather_prices; cbv zeta. rewrite Hfalsy. simpl. fold accepted.
        destruct accepted; reflexivity. }
      exact (Hproceed _ _ _ Hg Hcase).
Qed.

(** X24: for a source that is not a major retailer the validator of the scan is at
    least as strict as the check of [create_recommendation]: a price that the
    first accepts passes the second. *)
Theorem scan_validator_stricter :
  forall (product : Product) (price_data : ScrapedPrice),
    is_major_retailer (Some (sp_source price_data)) = false ->
    _validate_scraped_price (sp_price price_data) (cost_price product)
      (current_price product) (Some (sp_source price_data)) = true ->
    creation_accepts product price_data = true.
Proof.
  intros product price_data Hminor Hv.
  apply validate_bounds in Hv. cbv zeta in Hv. rewrite Hminor in Hv.
  destruct Hv as (_ & _ & Hc & _ & Hcur).
  unfold creation_accepts.
  py_case (Py.gt (cost_price product) 0).
  - specialize (Hc E). apply lt_false in Hc. rewrite Hc. simpl.
    py_case (Py.gt (current_price product) 0); [| reflexivity].
    destruct (Hcur E0) as [H1 H2]. cbv zeta.
    apply lt_false in H1. apply gt_false in H2. now rewrite H1, H2.
  - simpl. py_case (Py.gt (current_price product) 0); [| reflexivity].
    destruct (Hcur E0) as [H1 H2]. cbv zeta.
    apply lt_false in H1. apply gt_false in H2. now rewrite H1, H2.
Qed.

Lemma scan_validator_stricter_witness :
  let product := mkProduct "p1" "Robe" "R-1" "Other" 100 120 None 1 in
  let price_data := mkScraped 110 "ebay" "u1" in
  is_major_retailer (Some (sp_source price_data)) = false
  /\ _validate_scraped_price (sp_price price_data) (cost_price product)
       (current_price product) (Some (sp_source price_data)) = true
  /\ creation_accepts product price_data = true.
Proof.
  cbv zeta. split; [reflexivity |]. split; [reflexivity |].
  apply (scan_validator_stricter
           (mkProduct "p1" "Robe" "R-1" "Other" 100 120 None 1)
           (mkScraped 110 "ebay" "u1")); reflexivity.
Defined.

(** ** [update_recommendation] *)

Lemma apply_price_ids products pid price :
  map id (apply_price products pid price) = map id products.
Proof.
  unfold apply_price. rewrite map_map. apply map_ext.
  intros p. destruct (String.eqb (id p) pid); reflexivity.
Qed.

Lemma apply_price_in products pid price p :
  In p (apply_price products pid price) ->
  (id p = pid /\ current_price p = price) \/ (id p <> pid /\ In p products).
Proof.
  unfold apply_price. rewrite in_map_iff. intros (q & <- & Hq).
  destruct (String.eqb (id q) pid) eqn:E.
  - left. apply String.eqb_eq in E. simpl. auto.
  - right. apply String.eqb_neq in E. auto.
Qed.

(** X25: [update_recommendation] overwrites the status with the one given, whatever
    the status was, and changes nothing else of the recommendation; it changes the
    products only when the status given is "applied" and [applyPrice] is set, and
    then it sets the current price of the product of the recommendation, and of no
    other, to the suggested price. *)
Theorem update_recommendation_effects :
  forall (products : list Product) (recommendation : RecommendationRow)
         (status : option string) (applyPrice : bool),
    let products' := fst (update_recommendation products recommendation status
                            applyPrice) in
    let updated := snd (update_recommendation products recommendation status
                          applyPrice) in
    rec_id updated = rec_id recommendation
    /\ rec_product_id updated = rec_product_id recommendation
    /\ rec_output updated = rec_output recommendation
    /\ rec_status updated
       = match status with
         | Some s => s
         | None => rec_status recommendation
         end
    /\ map id products' = map id products
    /\ (status <> Some "applied"%string \/ applyPrice = false -> products' = products)
    /\ (status = Some "applied"%string -> applyPrice = true ->
          forall p, In p products' ->
                    (id p = rec_product_id recommendation
                     /\ current_price p = suggestedPrice (rec_output recommendation))
                    \/ (id p <> rec_product_id recommendation /\ In p products)).
Proof.
  intros products recommendation status applyPrice products' updated.
  subst products' updated. unfold update_recommendation; cbv zeta.
  cbn [fst snd].
  split; [destruct status; reflexivity |].
  split; [destruct status; reflexivity |].
  split; [destruct status; reflexivity |].
  split; [destruct status; reflexivity |].
  split; [| split].
  - destruct status as [s |]; [| reflexivity].
    destruct (String.eqb s "applied" && applyPrice); [| reflexivity].
    apply apply_price_ids.
  - intros H. destruct status as [s |]; [| reflexivity].
    destruct (String.eqb s "applied") eqn:E; [| reflexivity].
    apply String.eqb_eq in E. subst s.
    destruct H as [H | ->]; [congruence | reflexivity].
  - intros -> -> p Hp. simpl in Hp. now apply apply_price_in.
Qed.

(** ** [dashboard_data] *)

Lemma potential_uplift_nonneg impacts : forall acc,
  0 <= acc ->
  0 <= fold_left
         (fun potential_uplift revenue_impact =>
            match revenue_impact with
            | Some x =>
                if truthy x && Py.gt x 0 then potential_uplift + x
                else potential_uplift
            | None => potential_uplift
            end) impacts acc.
Proof.
  induction impacts as [| [x |] rest IH]; intros acc Hacc; simpl.
  - exact Hacc.
  - rewrite positive_check. py_case (Py.gt x 0); apply IH; lra.
  - now apply IH.
Qed.

Lemma len_map {A B} (f : A -> B) l : Py.len (map f l) = Py.len l.
Proof. unfold Py.len. now rewrite length_map. Qed.

(** X26: the potential uplift shown on the dashboard is never negative (impacts that
    are missing, zero or negative are left out); the average margin is 0 when no
    product has a positive current price, at most 100 when no cost is negative,
    and not negative when no product with a positive price is priced below its
    cost. *)
Theorem dashboard_metrics_bounds :
  forall (products : list Product) (pending_revenue_impacts : list (option Q)),
    let m := dashboard_metrics products pending_revenue_impacts in
    0 <= potentialUplift m
    /\ ((forall p, In p products -> current_price p <= 0) -> avgMargin m == 0)
    /\ ((forall p, In p products -> 0 <= cost_price p) -> avgMargin m <= 100)
    /\ ((forall p, In p products -> 0 < current_price p ->
                   cost_price p <= current_price p) -> 0 <= avgMargin m).
Proof.
  intros products pending_revenue_impacts m. subst m. unfold dashboard_metrics.
  cbn [potentialUplift avgMargin].
  set (valid := filter (fun p => truthy (current_price p) && Py.gt (current_price p) 0)
                       products).
  assert (forall p, In p valid -> In p products /\ 0 < current_price p) as Hvalid.
  { intros p Hp. subst valid. apply filter_In in Hp as [Hp Hc].
    rewrite positive_check in Hc. apply gt_true in Hc. auto. }
  assert (avg_margin products
          = if nonempty valid
            then Py.sum (map margin_percent valid) / Py.len (map margin_percent valid)
            else 0) as Havg.
  { unfold avg_margin; cbv zeta. fold valid. rewrite len_map.
    destruct (nonempty products) eqn:E; [reflexivity |].
    apply nonempty_false in E. subst valid. rewrite E. reflexivity. }
  assert (forall hi,
            (forall p, In p valid -> margin_percent p <= hi) -> 0 <= hi ->
            Py.round (avg_margin products) 1 <= Py.round hi 1) as Hupper.
  { intros hi H H0. rewrite Havg. apply round_mono.
    destruct (nonempty valid) eqn:E; [| exact H0].
    apply nonempty_true in E.
    apply average_upper; [destruct valid; [congruence | discriminate] |].
    intros x Hx. apply in_map_iff in Hx as (p & <- & Hp). now apply H. }
  assert (forall lo,
            (forall p, In p valid -> lo <= margin_percent p) -> lo <= 0 ->
            Py.round lo 1 <= Py.round (avg_margin products) 1) as Hlower.
  { intros lo H H0. rewrite Havg. apply round_mono.
    destruct (nonempty valid) eqn:E; [| exact H0].
    apply nonempty_true in E.
    apply average_lower; [destruct valid; [congruence | discriminate] |].
    intros x Hx. apply in_map_iff in Hx as (p & <- & Hp). now apply H. }
  split; [| split; [| split]].
  - apply Qle_trans with (Py.round 0 2); [vm_compute; discriminate |].
    apply round_mono. unfold potential_uplift. apply potential_uplift_nonneg. lra.
  - intros H. rewrite Havg.
    destruct valid as [| p ps] eqn:Ev; [vm_compute; reflexivity |].
    destruct (Hvalid p (or_introl eq_refl)) as [Hp Hc]. specialize (H p Hp). lra.
  - intros H. apply Qle_trans with (Py.round 100 1); [| vm_compute; discriminate].
    apply Hupper; [| lra].
    intros p Hp. destruct (Hvalid p Hp) as [Hin Hc]. specialize (H p Hin).
    unfold margin_percent.
    assert ((current_price p - cost_price p) / current_price p <= 1) as Hq
      by (apply Qle_shift_div_r; lra).
    lra.
  - intros H. apply Qle_trans with (Py.round 0 1); [vm_compute; discriminate |].
    apply Hlower; [| lra].
    intros p Hp. destruct (Hvalid p Hp) as [Hin Hc]. specialize (H p Hin Hc).
    unfold margin_percent.
    assert (0 <= (current_price p - cost_price p) / current_price p) as Hq
      by (apply Qle_shift_div_l; lra).
    lra.
Qed.

(** ** From a scan to a recommendation *)





